(** * atlantis-supervisor: the container registry (package [containers])

    A shallow embedding of the resource registry of the supervisor: the
    package-level configuration set by [Init], the state owned by the
    [containerManager] goroutine (container map, free-slot list, the two
    usage counters) and the request handlers [reserve] and [teardown].

    Go's [uint16] and [uint] values are integers in [Z]; every arithmetic
    operation of the source is followed by the reduction modulo [2^16]
    (resp. [2^64], the width of [uint] and [uint64] on the 64-bit targets
    the supervisor is built for) that the machine performs.  The handlers
    run in a small state/log/panic monad: the state is the set of package
    variables the manager owns, the log records the observable actions of
    a handler in program order (the container's teardown hook, the call of
    [save], the value sent on the response channel), and a panic is Go's
    run-time panic ([ports[0]] on an empty slice, or the dereference of a
    [nil] manifest pointer). *)

From stdpp Require Import gmap strings list fin_maps pretty.
From Stdlib Require Import ZArith Lia Ascii.

Local Open Scope Z_scope.

(** ** Machine integers *)

Module Word.

Definition mod16 : Z := 65536.
Definition mod64 : Z := 18446744073709551616.

Definition wrap16 (z : Z) : Z := z mod mod16.
Definition wrap64 (z : Z) : Z := z mod mod64.

(** [uint16] operators *)
Definition add16 (a b : Z) : Z := wrap16 (a + b).
Definition sub16 (a b : Z) : Z := wrap16 (a - b).
Definition mul16 (a b : Z) : Z := wrap16 (a * b).

(** [uint] and [uint64] operators *)
Definition add64 (a b : Z) : Z := wrap64 (a + b).
Definition sub64 (a b : Z) : Z := wrap64 (a - b).
Definition mul64 (a b : Z) : Z := wrap64 (a * b).

Definition is_u16 (z : Z) : Prop := 0 <= z < mod16.
Definition is_u64 (z : Z) : Prop := 0 <= z < mod64.

Global Instance is_u16_dec z : Decision (is_u16 z).
Proof. unfold is_u16. apply _. Defined.
Global Instance is_u64_dec z : Decision (is_u64 z).
Proof. unfold is_u64. apply _. Defined.

End Word.
Import Word.

(** ** Records of package [types] used by the registry *)

Module types.

(** [types.Manifest]: the registry reads the two resource fields only. *)
Record Manifest : Type := {
  CPUShares : Z;     (* uint *)
  MemoryLimit : Z;   (* uint, MB *)
}.

Definition Manifest_ok (m : Manifest) : Prop :=
  is_u64 (CPUShares m) /\ is_u64 (MemoryLimit m).

Global Instance Manifest_ok_dec m : Decision (Manifest_ok m).
Proof. unfold Manifest_ok. apply _. Defined.

End types.

(** [Container]: the fields [reserve] fills in.  [Manifest] is the
    manifest the stored pointer leads to: [reserve] has read through the
    pointer before it stores it. *)
Record Container : Type := {
  Id : string;
  PrimaryPort : Z;            (* uint16 *)
  SSHPort : Z;                (* uint16 *)
  SecondaryPorts : list Z;    (* []uint16 *)
  Manifest : types.Manifest;
}.

(** ** Package variables *)

(** The variables [Init] assigns and nothing else writes. *)
Record Config : Type := {
  RegistryHost : string;
  SaveDir : string;
  NumContainers : Z;       (* uint16 *)
  NumSecondaryPorts : Z;   (* uint16 *)
  MinPort : Z;             (* uint16 *)
  CPUShares : Z;           (* uint *)
  MemoryLimit : Z;         (* uint *)
}.

Definition Config_ok (cfg : Config) : Prop :=
  is_u16 (NumContainers cfg) /\ is_u16 (NumSecondaryPorts cfg) /\
  is_u16 (MinPort cfg) /\ is_u64 (CPUShares cfg) /\ is_u64 (MemoryLimit cfg).

Global Instance Config_ok_dec cfg : Decision (Config_ok cfg).
Proof. unfold Config_ok. apply _. Defined.

(** The variables only [containerManager] and its handlers touch. *)
Record State : Type := {
  containers : gmap string Container;
  ports : list Z;          (* []uint16, free slot indices *)
  usedMemoryLimit : Z;     (* uint *)
  usedCPUShares : Z;       (* uint *)
}.

(** ** Errors, requests, responses *)

Inductive error : Type :=
| ErrInvalidConfig                       (* Init: port range too large *)
| ErrOS (msg : string)                   (* Init: os.MkdirAll failed *)
| ErrNoFree                              (* reserve: no free containers *)
| ErrIdInUse (id : string)               (* reserve: the id is in use *)
| ErrCPU (requested available : Z)       (* reserve: not enough CPU shares *)
| ErrMemory (requested available : Z).   (* reserve: not enough memory *)

(** The text of each error, as [errors.New] receives it. *)
Definition Error (e : error) : string :=
  match e with
  | ErrInvalidConfig =>
      "Invalid Config. MinPort+(NumSecondaryPorts+2)*NumContainers-1 > 65535"
  | ErrOS msg => msg
  | ErrNoFree => "No free containers to reserve."
  | ErrIdInUse id => "The ID (" +:+ id +:+ ") is in use."
  | ErrCPU r a =>
      "Not enough CPU Shares to reserve. (" +:+ pretty r +:+ " requested, "
        +:+ pretty a +:+ " available)"
  | ErrMemory r a =>
      "Not enough Memory to reserve. (" +:+ pretty r +:+ " requested, "
        +:+ pretty a +:+ " available)"
  end.

(** [r_manifest] is the pointer [req.manifest]: [None] is [nil]. *)
Record ReserveReq : Type := {
  r_id : string;
  r_manifest : option types.Manifest;
}.

Record ReserveResp : Type := {
  container : option Container;
  err : option error;
}.

Record TeardownReq : Type := { t_id : string }.

(** ** The handler monad *)

Inductive Event : Type :=
| EvTeardownHook (c : Container)                       (* c.teardown() *)
| EvSave (cs : gmap string Container) (ps : list Z)    (* save() *)
| EvReserveResp (r : ReserveResp)                      (* req.respChan <- resp *)
| EvTeardownResp (b : bool).                           (* req.respChan <- b *)

Inductive Outcome (A : Type) : Type :=
| Done (a : A) (st : State) (log : list Event)
| Panic (msg : string).
Arguments Done {A} a st log.
Arguments Panic {A} msg.

Definition M (A : Type) : Type := State -> Outcome A.

Definition ret {A} (a : A) : M A := fun st => Done a st [].

Definition bind {A B} (m : M A) (k : A -> M B) : M B := fun st =>
  match m st with
  | Done a st1 l1 =>
      match k a st1 with
      | Done b st2 l2 => Done b st2 (l1 ++ l2)
      | Panic msg => Panic msg
      end
  | Panic msg => Panic msg
  end.

Global Instance M_ret : MRet M := @ret.
Global Instance M_bind : MBind M := fun A B k m => bind m k.

Definition get : M State := fun st => Done st st [].
Definition modify (f : State -> State) : M unit := fun st => Done tt (f st) [].
Definition emit (e : Event) : M unit := fun st => Done tt st [e].
Definition panic {A} (msg : string) : M A := fun _ => Panic msg.

Definition set_containers (f : gmap string Container -> gmap string Container)
  (st : State) : State :=
  {| containers := f (containers st); ports := ports st;
     usedMemoryLimit := usedMemoryLimit st; usedCPUShares := usedCPUShares st |}.

Definition set_ports (f : list Z -> list Z) (st : State) : State :=
  {| containers := containers st; ports := f (ports st);
     usedMemoryLimit := usedMemoryLimit st; usedCPUShares := usedCPUShares st |}.

Definition set_usedMemoryLimit (f : Z -> Z) (st : State) : State :=
  {| containers := containers st; ports := ports st;
     usedMemoryLimit := f (usedMemoryLimit st); usedCPUShares := usedCPUShares st |}.

Definition set_usedCPUShares (f : Z -> Z) (st : State) : State :=
  {| containers := containers st; ports := ports st;
     usedMemoryLimit := usedMemoryLimit st; usedCPUShares := f (usedCPUShares st) |}.

(** [save()]: the body is in another file of the package; the handlers'
    only interaction with it is the call, recorded with the two objects
    it writes (the container map and the free-slot list). *)
Definition save : M unit := fun st =>
  Done tt st [EvSave (containers st) (ports st)].

(** Reading a field through a pointer: a run-time panic on [nil]. *)
Definition deref {A} (p : option A) : M A := fun st =>
  match p with
  | Some a => ret a st
  | None => panic "invalid memory address or nil pointer dereference" st
  end.

(** [ports[0]]: a run-time panic on an empty slice. *)
Definition ports_head : M Z := fun st =>
  match ports st with
  | p :: _ => ret p st
  | [] => panic "index out of range" st
  end.

(** ** Init *)

Record InitResult : Type := {
  init_config : Config;          (* the package variables after the call *)
  init_err : option error;       (* the returned error *)
  init_started : bool;           (* whether [go containerManager()] ran *)
}.

(** The left-hand side of the comparison in [Init], in [uint64]. *)
Definition port_span64 (cfg : Config) : Z :=
  sub64 (add64 (MinPort cfg)
               (mul64 (add64 (NumSecondaryPorts cfg) 2) (NumContainers cfg))) 1.

(** [mkdirAll] is what [os.MkdirAll(SaveDir, 0755)] returns.  The warning
    logged when [NumContainers] differs from [CPUShares] changes neither
    the variables nor the result. *)
Definition Init (registry saveDir : string)
  (numContainers numSecondaryPorts minPort cpu memory : Z)
  (mkdirAll : option error) : InitResult :=
  let cfg := {| RegistryHost := registry; SaveDir := saveDir;
                NumContainers := numContainers;
                NumSecondaryPorts := numSecondaryPorts;
                MinPort := minPort; CPUShares := cpu; MemoryLimit := memory |} in
  if port_span64 cfg >? 65535 then
    {| init_config := cfg; init_err := Some ErrInvalidConfig; init_started := false |}
  else
    match mkdirAll with
    | Some e => {| init_config := cfg; init_err := Some e; init_started := false |}
    | None => {| init_config := cfg; init_err := None; init_started := true |}
    end.

(** ** The manager and its handlers *)

Section Manager.

Context (cfg : Config).

(** The loop of [reserve] filling [secondaryPorts]; [i] runs over
    [0 .. NumSecondaryPorts - 1] as a [uint16]. *)
Definition secondaryPorts (port : Z) : list Z :=
  (fun i : nat =>
     add16 (add16 (MinPort cfg) (mul16 (NumContainers cfg) (add16 (Z.of_nat i) 2))) port)
    <$> seq 0 (Z.to_nat (NumSecondaryPorts cfg)).

(** The record [reserve] stores for slot [port]. *)
Definition newContainer (id : string) (manifest : types.Manifest) (port : Z)
  : Container :=
  {| Id := id;
     PrimaryPort := add16 (MinPort cfg) port;
     SSHPort := add16 (add16 (MinPort cfg) (NumContainers cfg)) port;
     SecondaryPorts := secondaryPorts port;
     Manifest := manifest |}.

Definition reserve (req : ReserveReq) : M unit :=
  st ← get;
  resp ←
    (if bool_decide (Z.of_nat (size (containers st)) >= NumContainers cfg) then
       ret {| container := None; err := Some ErrNoFree |}
     else if bool_decide (is_Some (containers st !! r_id req)) then
       ret {| container := None; err := Some (ErrIdInUse (r_id req)) |}
     else
       manifest ← deref (r_manifest req);
       if add64 (types.CPUShares manifest) (usedCPUShares st) >? CPUShares cfg then
         ret {| container := None;
                err := Some (ErrCPU (types.CPUShares manifest)
                                    (sub64 (CPUShares cfg) (usedCPUShares st))) |}
       else if add64 (types.MemoryLimit manifest) (usedMemoryLimit st)
                 >? MemoryLimit cfg then
         ret {| container := None;
                err := Some (ErrMemory (types.MemoryLimit manifest)
                                       (sub64 (MemoryLimit cfg) (usedMemoryLimit st))) |}
       else
         port ← ports_head;
         modify (set_ports (drop 1)) ;;
         let c := newContainer (r_id req) manifest port in
         modify (set_containers <[r_id req := c]>) ;;
         modify (set_usedMemoryLimit
                   (fun u => add64 u (types.MemoryLimit manifest))) ;;
         modify (set_usedCPUShares
                   (fun u => add64 u (types.CPUShares manifest))) ;;
         ret {| container := Some c; err := None |});
  emit (EvReserveResp resp).

Definition teardown (req : TeardownReq) : M unit :=
  st ← get;
  match containers st !! t_id req with
  | Some c =>
      emit (EvTeardownHook c) ;;
      modify (set_ports (fun ps => ps ++ [sub16 (PrimaryPort c) (MinPort cfg)])) ;;
      modify (set_usedMemoryLimit
                (fun u => sub64 u (types.MemoryLimit (Manifest c)))) ;;
      modify (set_usedCPUShares
                (fun u => sub64 u (types.CPUShares (Manifest c)))) ;;
      modify (set_containers (delete (t_id req))) ;;
      save ;;
      emit (EvTeardownResp true)
  | None => emit (EvTeardownResp false)
  end.

(** The start of [containerManager], up to the request loop.
    [loadedContainers] and [loadedPorts] are what the two calls of
    [retrieveObject] decoded, [None] when the call returned false. *)
Definition initial_ports : list Z :=
  Z.of_nat <$> seq 0 (Z.to_nat (NumContainers cfg)).

Definition startup (loadedContainers : option (gmap string Container))
  (loadedPorts : option (list Z)) : State :=
  let cs := default ∅ loadedContainers in
  let ps := default initial_ports loadedPorts in
  {| containers := cs;
     ports := ps;
     usedMemoryLimit :=
       map_fold (fun _ cont u => add64 u (types.MemoryLimit (Manifest cont))) 0 cs;
     usedCPUShares :=
       map_fold (fun _ cont u => add64 u (types.CPUShares (Manifest cont))) 0 cs |}.

(** One iteration of the [select] loop, for the two mutating requests. *)
Inductive Request : Type :=
| ReqReserve (req : ReserveReq)
| ReqTeardown (req : TeardownReq).

Definition serve (r : Request) : M unit :=
  match r with
  | ReqReserve req => reserve req
  | ReqTeardown req => teardown req
  end.

Fixpoint serve_all (rs : list Request) : M unit :=
  match rs with
  | [] => ret tt
  | r :: rs' => serve r ;; serve_all rs'
  end.

(** [containerManager] on the decoded snapshots, serving the requests
    [rs] in the order they are received. *)
Definition containerManager (loadedContainers : option (gmap string Container))
  (loadedPorts : option (list Z)) (rs : list Request) : Outcome unit :=
  serve_all rs (startup loadedContainers loadedPorts).

End Manager.

(** ** Derived notions used in the statements *)

(** The slot index [teardown] gives back: [PrimaryPort - MinPort]. *)
Definition slot_of (cfg : Config) (c : Container) : Z :=
  sub16 (PrimaryPort c) (MinPort cfg).

(** The slot indices held by the active containers. *)
Definition occupied (cfg : Config) (st : State) : list Z :=
  (fun kv : string * Container => slot_of cfg kv.2) <$> map_to_list (containers st).

(** Every port number a container owns. *)
Definition all_ports (c : Container) : list Z :=
  PrimaryPort c :: SSHPort c :: SecondaryPorts c.

(** Sums over the active containers, in unbounded integers. *)
Definition total_cpu (cs : gmap string Container) : Z :=
  map_fold (fun _ c acc => acc + types.CPUShares (Manifest c)) 0 cs.

Definition total_memory (cs : gmap string Container) : Z :=
  map_fold (fun _ c acc => acc + types.MemoryLimit (Manifest c)) 0 cs.

(** The bound [Init] is after, in unbounded integers. *)
Definition port_span (cfg : Config) : Z :=
  MinPort cfg + (NumSecondaryPorts cfg + 2) * NumContainers cfg - 1.

(** The two refusals of [reserve] that do not read the manifest. *)
Definition early_refusal (cfg : Config) (id : string) (st : State) : option error :=
  if bool_decide (Z.of_nat (size (containers st)) >= NumContainers cfg) then
    Some ErrNoFree
  else if bool_decide (is_Some (containers st !! id)) then
    Some (ErrIdInUse id)
  else None.

(** The four refusals of [reserve] for a request that carries the
    manifest [m], in source order; [None] when the request is admitted. *)
Definition refusal (cfg : Config) (id : string) (m : types.Manifest) (st : State)
  : option error :=
  if bool_decide (Z.of_nat (size (containers st)) >= NumContainers cfg) then
    Some ErrNoFree
  else if bool_decide (is_Some (containers st !! id)) then
    Some (ErrIdInUse id)
  else if add64 (types.CPUShares m) (usedCPUShares st) >? CPUShares cfg then
    Some (ErrCPU (types.CPUShares m) (sub64 (CPUShares cfg) (usedCPUShares st)))
  else if add64 (types.MemoryLimit m) (usedMemoryLimit st) >? MemoryLimit cfg then
    Some (ErrMemory (types.MemoryLimit m)
                    (sub64 (MemoryLimit cfg) (usedMemoryLimit st)))
  else None.

(** The state a granted reservation leaves behind. *)
Definition reserved (cfg : Config) (id : string) (m : types.Manifest) (st : State)
  (port : Z) (rest : list Z) : State :=
  {| containers := <[id := newContainer cfg id m port]> (containers st);
     ports := rest;
     usedMemoryLimit := add64 (usedMemoryLimit st) (types.MemoryLimit m);
     usedCPUShares := add64 (usedCPUShares st) (types.CPUShares m) |}.

(** The state a teardown of the active container [c] leaves behind. *)
Definition torn_down (cfg : Config) (id : string) (c : Container) (st : State) : State :=
  {| containers := delete id (containers st);
     ports := ports st ++ [slot_of cfg c];
     usedMemoryLimit := sub64 (usedMemoryLimit st) (types.MemoryLimit (Manifest c));
     usedCPUShares := sub64 (usedCPUShares st) (types.CPUShares (Manifest c)) |}.

(** [save] events of a log. *)
Definition is_save (e : Event) : bool :=
  match e with EvSave _ _ => true | _ => false end.

(** The value [teardown] sends on the response channel. *)
Definition teardown_answer (o : Outcome unit) : option bool :=
  match o with
  | Done _ _ log =>
      match last log with
      | Some (EvTeardownResp b) => Some b
      | _ => None
      end
  | Panic _ => None
  end.

(** ** Invariants *)

(** The free list and the occupied slots are a rearrangement of
    [0 .. NumContainers - 1], and every stored record is the one
    [reserve] builds for the slot it occupies. *)
Record slots_inv (cfg : Config) (st : State) : Prop := {
  inv_partition : ports st ++ occupied cfg st ≡ₚ initial_ports cfg;
  inv_derived :
    map_Forall
      (fun id c => c = newContainer cfg id (Manifest c) (slot_of cfg c))
      (containers st);
}.

Definition manifests_ok (cs : gmap string Container) : Prop :=
  map_Forall (fun _ c => types.Manifest_ok (Manifest c)) cs.

(** The counters are the sums over the active containers and within the
    configured totals. *)
Record counters_inv (cfg : Config) (st : State) : Prop := {
  cnt_typed : manifests_ok (containers st);
  cnt_cpu : usedCPUShares st = total_cpu (containers st);
  cnt_cpu_le : total_cpu (containers st) <= CPUShares cfg;
  cnt_memory : usedMemoryLimit st = total_memory (containers st);
  cnt_memory_le : total_memory (containers st) <= MemoryLimit cfg;
}.

(** A request whose amounts, added to the configured totals, stay in the
    range of [uint]. *)
Definition fits (cfg : Config) (r : Request) : Prop :=
  match r with
  | ReqReserve req =>
      match r_manifest req with
      | Some m =>
          types.Manifest_ok m /\
          types.CPUShares m + CPUShares cfg < mod64 /\
          types.MemoryLimit m + MemoryLimit cfg < mod64
      | None => True
      end
  | ReqTeardown _ => True
  end.

Global Instance fits_dec cfg r : Decision (fits cfg r).
Proof. destruct r as [req|?]; simpl; [destruct (r_manifest req)|]; apply _. Defined.

(** ** Concrete registries used in the examples *)

Module Sample.

(** The configuration of the port-allocation example: four slots, two
    secondary ports each, ports from 1000. *)
Definition cfg4 : Config :=
  {| RegistryHost := "registry.local"; SaveDir := "/var/atlantis/save";
     NumContainers := 4; NumSecondaryPorts := 2; MinPort := 1000;
     CPUShares := 10; MemoryLimit := 1024 |}.

Definition manifest (cpu memory : Z) : types.Manifest :=
  {| types.CPUShares := cpu; types.MemoryLimit := memory |}.

Definition req (id : string) (cpu memory : Z) : ReserveReq :=
  {| r_id := id; r_manifest := Some (manifest cpu memory) |}.

Definition fresh4 : State := startup cfg4 None None.

(** [fresh4] after reserving "a", and after reserving "a" then "b". *)
Definition one4 : State := reserved cfg4 "a" (manifest 1 64) fresh4 0 [1; 2; 3].
Definition two4 : State := reserved cfg4 "b" (manifest 2 128) one4 1 [2; 3].

(** A registry of two slots with both taken. *)
Definition cfg2 : Config :=
  {| RegistryHost := "registry.local"; SaveDir := "/var/atlantis/save";
     NumContainers := 2; NumSecondaryPorts := 2; MinPort := 1000;
     CPUShares := 10; MemoryLimit := 1024 |}.

Definition full2 : State :=
  reserved cfg2 "b" (manifest 2 128)
    (reserved cfg2 "a" (manifest 1 64) (startup cfg2 None None) 0 [1]) 1 [].

(** A snapshot holding one container that asks for 10 CPU shares, and a
    configuration that now offers 5. *)
Definition cfg_low : Config :=
  {| RegistryHost := "registry.local"; SaveDir := "/var/atlantis/save";
     NumContainers := 4; NumSecondaryPorts := 2; MinPort := 1000;
     CPUShares := 5; MemoryLimit := 1024 |}.

Definition snapshot : gmap string Container :=
  {[ "a" := newContainer cfg_low "a" (manifest 10 64) 0 ]}.

(** The largest [uint]. *)
Definition max_uint : Z := 18446744073709551615.

End Sample.

(** ** The read-only requests *)

(** [types.ResourceStats]: [nums] fills the three fields in this order. *)
Record ResourceStats : Type := {
  Total : Z;   (* uint *)
  Used : Z;    (* uint *)
  Free : Z;    (* uint *)
}.

Record GetReq : Type := { g_id : string }.

(** [ListResp] and [NumsResp]; the fields carry a prefix because the
    names of the source are those of the package variables. *)
Record ListResp : Type := {
  l_containers : gmap string Container;
  l_ports : list Z;        (* []uint16, real port numbers *)
}.

Record NumsResp : Type := {
  n_Containers : ResourceStats;
  n_CPUShares : ResourceStats;
  n_Memory : ResourceStats;
}.

(** The handlers [get], [list] and [nums] assign none of the manager's
    variables and send one value on the response channel: each is the
    function from the state to the value it sends. *)
Module handlers.

(** [nil] when the id is not a key, a copy of the record otherwise. *)
Definition get (req : GetReq) (st : State) : option Container :=
  containers st !! g_id req.

Definition nums (cfg : Config) (st : State) : NumsResp :=
  {| n_Containers :=
       {| Total := NumContainers cfg;
          Used := Z.of_nat (size (containers st));
          Free := sub64 (NumContainers cfg) (Z.of_nat (size (containers st))) |};
     n_CPUShares :=
       {| Total := CPUShares cfg;
          Used := usedCPUShares st;
          Free := sub64 (CPUShares cfg) (usedCPUShares st) |};
     n_Memory :=
       {| Total := MemoryLimit cfg;
          Used := usedMemoryLimit st;
          Free := sub64 (MemoryLimit cfg) (usedMemoryLimit st) |} |}.

(** Copies of the map and of the free list, the latter with [MinPort]
    added to every slot index. *)
Definition list (cfg : Config) (st : State) : ListResp :=
  {| l_containers := containers st;
     l_ports := (fun port => add16 (MinPort cfg) port) <$> ports st |}.

End handlers.

(** The counters as the manager's arithmetic keeps them: the sums over
    the active containers, reduced modulo [2^64]. *)
Definition counters_mod (st : State) : Prop :=
  usedCPUShares st = wrap64 (total_cpu (containers st)) /\
  usedMemoryLimit st = wrap64 (total_memory (containers st)).

(** A registry of ten CPU shares with six of them given to "a". *)
Module Sample2.

Definition six : State :=
  reserved Sample.cfg4 "a" (Sample.manifest 6 64) Sample.fresh4 0 [1; 2; 3].

(** The registry started on [Sample.snapshot] under [Sample.cfg_low]. *)
Definition over : State :=
  startup Sample.cfg_low (Some Sample.snapshot) (Some [1; 2; 3]).

End Sample2.

(** Starts on snapshots that do not fit the running configuration, and
    the requests and responses of the runs used as examples. *)
Module Sample3.

(** Container "a" on slot 0 of [Sample.cfg4], as a container snapshot. *)
Definition snapshot_a : gmap string Container :=
  {[ "a" := newContainer Sample.cfg4 "a" (Sample.manifest 1 64) 0 ]}.

(** [Sample.cfg4] with three slots instead of four, and the snapshot of a
    registry that ran under it with "a" on slot 0. *)
Definition cfg3 : Config :=
  {| RegistryHost := "registry.local"; SaveDir := "/var/atlantis/save";
     NumContainers := 3; NumSecondaryPorts := 2; MinPort := 1000;
     CPUShares := 10; MemoryLimit := 1024 |}.

Definition snapshot3 : gmap string Container :=
  {[ "a" := newContainer cfg3 "a" (Sample.manifest 1 64) 0 ]}.

Definition granted (c : Container) : Event :=
  EvReserveResp {| container := Some c; err := None |}.

(** The requests that lead from [Sample.fresh4] to [Sample.two4], and
    what the manager answers. *)
Definition requests_two4 : list Request :=
  [ReqReserve (Sample.req "a" 1 64); ReqReserve (Sample.req "b" 2 128)].

Definition log_two4 : list Event :=
  [granted (newContainer Sample.cfg4 "a" (Sample.manifest 1 64) 0);
   granted (newContainer Sample.cfg4 "b" (Sample.manifest 2 128) 1)].

Definition requests_full2 : list Request :=
  [ReqReserve (Sample.req "a" 1 64); ReqReserve (Sample.req "b" 2 128)].

Definition log_full2 : list Event :=
  [granted (newContainer Sample.cfg2 "a" (Sample.manifest 1 64) 0);
   granted (newContainer Sample.cfg2 "b" (Sample.manifest 2 128) 1)].

End Sample3.

(** ** Package [monitor]: the lines a service check prints *)

Module monitor.

(** The Nagios states, [iota] constants of the source. *)
Definition OK : Z := 0.
Definition Warning : Z := 1.
Definition Critical : Z := 2.
Definition Uknown : Z := 3.

Record ServiceCheck : Type := {
  Service : string;
  User : string;
  Identity : string;
  Host : string;
  Port : Z;          (* uint16 *)
  Script : string;
}.

(** [ContainerCheck]; the host of the checked container, a field of
    [types.Container] the registry never sets, is carried beside the
    registry's record. *)
Record ContainerCheck : Type := {
  cc_Name : string;
  cc_User : string;
  cc_Identity : string;
  cc_Directory : string;
  cc_Host : string;
  cc_container : Container;
}.

(** The bytes the source splits on or ends its lines with. *)
Definition space : ascii := Eval vm_compute in ascii_of_nat 32.
Definition dot : ascii := Eval vm_compute in ascii_of_nat 46.
Definition newline : string :=
  Eval vm_compute in String (ascii_of_nat 10) EmptyString.

(** Whether the byte [sep] occurs in [s]. *)
Fixpoint contains (sep : ascii) (s : string) : bool :=
  match s with
  | EmptyString => false
  | String c s' =>
      if Ascii.eqb c sep then true else contains sep s'
  end.

(** The text before and after the first [sep] of [s], as [strings.Index]
    and the two slices of [strings.SplitN] give them. *)
Fixpoint cut (sep : ascii) (s : string) : option (string * string) :=
  match s with
  | EmptyString => None
  | String c s' =>
      if Ascii.eqb c sep then Some (EmptyString, s')
      else match cut sep s' with
           | Some (a, b) => Some (String c a, b)
           | None => None
           end
  end.

(** [strings.SplitN(s, sep, n)] for a one-byte separator and [n >= 0]: at
    most [n] pieces, the last one the unsplit remainder. *)
Fixpoint SplitN (sep : ascii) (n : nat) (s : string) : list string :=
  match n with
  | O => []
  | S n' =>
      match n' with
      | O => [s]
      | S _ =>
          match cut sep s with
          | Some (a, b) => a :: SplitN sep n' b
          | None => [s]
          end
      end
  end.

(** [strings.Split(s, sep)] for a one-byte separator. *)
Fixpoint Split (sep : ascii) (s : string) : list string :=
  match s with
  | EmptyString => [EmptyString]
  | String c s' =>
      if Ascii.eqb c sep then EmptyString :: Split sep s'
      else match Split sep s' with
           | x :: xs => String c x :: xs
           | [] => [String c EmptyString]
           end
  end.

Definition timeOutMsg (s : ServiceCheck) : string :=
  pretty Critical +:+ " " +:+ Service s +:+ " - Timeout occured during check"
    +:+ newline.

(** [err] is [None] for a [nil] error and the text of the error otherwise. *)
Definition errMsg (s : ServiceCheck) (err : option string) : string :=
  match err with
  | Some e => pretty Critical +:+ " " +:+ Service s +:+ " - " +:+ e +:+ newline
  | None =>
      pretty Critical +:+ " " +:+ Service s
        +:+ " - Error encountered while monitoring the service" +:+ newline
  end.

Definition validate (s : ServiceCheck) (msg : string) : string :=
  let m := SplitN space 4 msg in
  match m !! 1%nat with
  | Some field => if decide (field = Service s) then msg else errMsg s None
  | None => errMsg s None
  end.

(** The text [runCheck] prints, from what the command returned. *)
Definition runCheck (s : ServiceCheck) (out : string) (err : option string) : string :=
  match err with
  | Some e => errMsg s (Some e)
  | None => validate s out
  end.

Definition serviceCheck (c : ContainerCheck) (script : string) : ServiceCheck :=
  let command :=
    cc_Directory c +:+ "/" +:+ script +:+ " "
      +:+ pretty (PrimaryPort (cc_container c)) +:+ " " +:+ Id (cc_container c) in
  let serviceName :=
    default "" (head (Split dot script)) +:+ "_" +:+ Id (cc_container c) in
  {| Service := serviceName; User := cc_User c; Identity := cc_Identity c;
     Host := cc_Host c; Port := SSHPort (cc_container c); Script := command |}.

(** A check of the container "b" of [Sample.two4]. *)
Definition sample_check : ContainerCheck :=
  {| cc_Name := "ContainerMonitor_b"; cc_User := "root";
     cc_Identity := "/opt/atlantis/supervisor/master_id_rsa";
     cc_Directory := "/check_mk_checks"; cc_Host := "localhost";
     cc_container := newContainer Sample.cfg4 "b" (Sample.manifest 2 128) 1 |}.

End monitor.

(** * Execution lemmas *)

Ltac run_monad :=
  unfold ports_head, deref;
  unfold mbind, mret, M_bind, M_ret, bind, ret, get, modify, emit, save, panic;
  simpl.

Ltac split_checks Hr :=
  repeat case_bool_decide; repeat (destruct (_ >? _)); try discriminate Hr.

Lemma refusal_early cfg id m st e :
  early_refusal cfg id st = Some e -> refusal cfg id m st = Some e.
Proof.
  unfold early_refusal, refusal. intros Hr.
  repeat case_bool_decide; done.
Qed.

Lemma refusal_None_early cfg id m st :
  refusal cfg id m st = None -> early_refusal cfg id st = None.
Proof.
  unfold early_refusal, refusal. intros Hr.
  repeat case_bool_decide; done.
Qed.

Lemma reserve_early_refused cfg req st e :
  early_refusal cfg (r_id req) st = Some e ->
  reserve cfg req st =
    Done tt st [EvReserveResp {| container := None; err := Some e |}].
Proof.
  unfold early_refusal, reserve. run_monad. intros Hr.
  repeat case_bool_decide; try discriminate Hr; injection Hr as <-; reflexivity.
Qed.

Lemma reserve_refused cfg req m st e :
  r_manifest req = Some m ->
  refusal cfg (r_id req) m st = Some e ->
  reserve cfg req st =
    Done tt st [EvReserveResp {| container := None; err := Some e |}].
Proof.
  unfold refusal, reserve. run_monad. intros -> Hr.
  split_checks Hr; injection Hr as <-; reflexivity.
Qed.

Lemma reserve_granted cfg req m st port rest :
  r_manifest req = Some m ->
  refusal cfg (r_id req) m st = None ->
  ports st = port :: rest ->
  reserve cfg req st =
    Done tt (reserved cfg (r_id req) m st port rest)
      [EvReserveResp
         {| container := Some (newContainer cfg (r_id req) m port);
            err := None |}].
Proof.
  unfold refusal, reserve. run_monad. intros -> Hr Hp.
  split_checks Hr. simpl. rewrite Hp.
  unfold reserved, set_usedCPUShares, set_usedMemoryLimit, set_containers, set_ports.
  simpl. rewrite Hp. reflexivity.
Qed.

Lemma reserve_panics cfg req m st :
  r_manifest req = Some m ->
  refusal cfg (r_id req) m st = None ->
  ports st = [] ->
  reserve cfg req st = Panic "index out of range".
Proof.
  unfold refusal, reserve. run_monad. intros -> Hr Hp.
  split_checks Hr. simpl. rewrite Hp. reflexivity.
Qed.

Lemma reserve_nil_panics cfg req st :
  r_manifest req = None ->
  early_refusal cfg (r_id req) st = None ->
  reserve cfg req st = Panic "invalid memory address or nil pointer dereference".
Proof.
  unfold early_refusal, reserve. run_monad. intros -> Hr.
  repeat case_bool_decide; try discriminate Hr; reflexivity.
Qed.

(** What a completed run of [reserve] did: it either answered an error
    and left the state alone, or granted a request that carries a
    manifest and took the head of the free list. *)
Lemma reserve_Done cfg req st st' log :
  reserve cfg req st = Done tt st' log ->
  (exists e,
     st' = st /\ log = [EvReserveResp {| container := None; err := Some e |}] /\
     (early_refusal cfg (r_id req) st = Some e \/
      exists m, r_manifest req = Some m /\ refusal cfg (r_id req) m st = Some e)) \/
  (exists m port rest,
     r_manifest req = Some m /\ refusal cfg (r_id req) m st = None /\
     ports st = port :: rest /\
     st' = reserved cfg (r_id req) m st port rest /\
     log = [EvReserveResp
              {| container := Some (newContainer cfg (r_id req) m port);
                 err := None |}]).
Proof.
  intros Hrun.
  destruct (early_refusal cfg (r_id req) st) as [e|] eqn:He.
  { rewrite (reserve_early_refused _ _ _ _ He) in Hrun. injection Hrun as <- <-.
    left. exists e. eauto. }
  destruct (r_manifest req) as [m|] eqn:Hm.
  2: { by rewrite (reserve_nil_panics _ _ _ Hm He) in Hrun. }
  destruct (refusal cfg (r_id req) m st) as [e|] eqn:Hr.
  { rewrite (reserve_refused _ _ _ _ _ Hm Hr) in Hrun. injection Hrun as <- <-.
    left. exists e. split; [done|]. split; [done|]. right. by exists m. }
  destruct (ports st) as [|port rest] eqn:Hp.
  { by rewrite (reserve_panics _ _ _ _ Hm Hr Hp) in Hrun. }
  rewrite (reserve_granted _ _ _ _ _ _ Hm Hr Hp) in Hrun. injection Hrun as <- <-.
  right. by exists m, port, rest.
Qed.

(** A run that answered a container is a granted one. *)
Lemma reserve_Done_granted cfg req st st' c :
  reserve cfg req st
    = Done tt st' [EvReserveResp {| container := Some c; err := None |}] ->
  exists m port rest,
    r_manifest req = Some m /\ refusal cfg (r_id req) m st = None /\
    ports st = port :: rest /\
    st' = reserved cfg (r_id req) m st port rest /\
    c = newContainer cfg (r_id req) m port.
Proof.
  intros Hrun.
  apply reserve_Done in Hrun as [(e & _ & Hlog & _) | (m & port & rest & Hm & Hr & Hp & -> & Hlog)].
  - discriminate Hlog.
  - injection Hlog as ->. by exists m, port, rest.
Qed.

Lemma teardown_absent cfg id st :
  containers st !! id = None ->
  teardown cfg {| t_id := id |} st = Done tt st [EvTeardownResp false].
Proof. unfold teardown. run_monad. intros ->. reflexivity. Qed.

Lemma teardown_active cfg id c st :
  containers st !! id = Some c ->
  teardown cfg {| t_id := id |} st =
    Done tt (torn_down cfg id c st)
      [EvTeardownHook c;
       EvSave (delete id (containers st)) (ports st ++ [slot_of cfg c]);
       EvTeardownResp true].
Proof. unfold teardown. run_monad. intros ->. reflexivity. Qed.

(** * Machine arithmetic *)

Lemma wrap16_small z : is_u16 z -> wrap16 z = z.
Proof. unfold is_u16, wrap16. intros. apply Z.mod_small. done. Qed.

Lemma wrap64_small z : is_u64 z -> wrap64 z = z.
Proof. unfold is_u64, wrap64. intros. apply Z.mod_small. done. Qed.

Lemma add64_wrap_l a b : add64 (wrap64 a) b = wrap64 (a + b).
Proof. unfold add64, wrap64. apply Zplus_mod_idemp_l. Qed.

(** Subtracting [MinPort] from a primary port gives the slot back,
    whether or not the addition wrapped. *)
Lemma sub16_add16 a s : is_u16 s -> sub16 (add16 a s) a = s.
Proof.
  intros Hs. unfold sub16, add16, wrap16.
  rewrite Zminus_mod_idemp_l.
  replace (a + s - a) with s by lia. apply Z.mod_small. exact Hs.
Qed.

Lemma slot_of_newContainer cfg id m s :
  is_u16 s -> slot_of cfg (newContainer cfg id m s) = s.
Proof. intros Hs. unfold slot_of. simpl. apply sub16_add16. exact Hs. Qed.

(** Under the bound of [Init] no port computation wraps. *)
Section NoWrap.

Context (cfg : Config).
Hypothesis Hcfg : Config_ok cfg.
Hypothesis Hspan : port_span cfg <= 65535.

Lemma primary_exact s :
  0 <= s < NumContainers cfg ->
  add16 (MinPort cfg) s = MinPort cfg + s.
Proof.
  destruct Hcfg as (Hn & Hk & Hm & _). unfold port_span in Hspan.
  unfold is_u16, mod16 in *. intros Hs.
  unfold add16. apply wrap16_small. unfold is_u16, mod16. nia.
Qed.

Lemma ssh_exact s :
  0 <= s < NumContainers cfg ->
  add16 (add16 (MinPort cfg) (NumContainers cfg)) s =
    MinPort cfg + NumContainers cfg + s.
Proof.
  destruct Hcfg as (Hn & Hk & Hm & _). unfold port_span in Hspan.
  unfold is_u16, mod16 in *. intros Hs.
  unfold add16. rewrite (wrap16_small (_ + NumContainers cfg));
    [apply wrap16_small|]; unfold is_u16, mod16; nia.
Qed.

Lemma secondary_exact s i :
  0 <= s < NumContainers cfg ->
  0 <= i < NumSecondaryPorts cfg ->
  add16 (add16 (MinPort cfg) (mul16 (NumContainers cfg) (add16 i 2))) s =
    MinPort cfg + NumContainers cfg * (i + 2) + s.
Proof.
  destruct Hcfg as (Hn & Hk & Hm & _). unfold port_span in Hspan.
  unfold is_u16, mod16 in *. intros Hs Hi.
  assert (Hprod : NumContainers cfg * (i + 2) + NumContainers cfg
                  <= (NumSecondaryPorts cfg + 2) * NumContainers cfg) by nia.
  assert (Hi2 : i + 2 < 65536) by nia.
  unfold add16, mul16.
  rewrite (wrap16_small (i + 2)) by (unfold is_u16, mod16; lia).
  rewrite (wrap16_small (_ * _)) by (unfold is_u16, mod16; nia).
  rewrite (wrap16_small (MinPort cfg + _)) by (unfold is_u16, mod16; nia).
  apply wrap16_small. unfold is_u16, mod16. nia.
Qed.

Lemma secondaryPorts_lookup s (i : nat) :
  0 <= s < NumContainers cfg ->
  Z.of_nat i < NumSecondaryPorts cfg ->
  secondaryPorts cfg s !! i =
    Some (MinPort cfg + NumContainers cfg * (Z.of_nat i + 2) + s).
Proof.
  intros Hs Hi. unfold secondaryPorts.
  rewrite list_lookup_fmap, lookup_seq_lt by lia. simpl.
  f_equal. apply secondary_exact; lia.
Qed.

(** Every port of the record built for slot [s] lies in band [j] at
    offset [s], for some band [j] below [NumSecondaryPorts + 2]. *)
Lemma all_ports_band id m s p :
  0 <= s < NumContainers cfg ->
  p ∈ all_ports (newContainer cfg id m s) ->
  exists j, 0 <= j < NumSecondaryPorts cfg + 2 /\
            p = MinPort cfg + NumContainers cfg * j + s.
Proof.
  intros Hs. unfold all_ports. simpl.
  destruct Hcfg as (Hn & Hk & Hm & _). unfold is_u16 in *.
  rewrite !elem_of_cons. intros [-> | [-> | Hp]].
  - exists 0. rewrite primary_exact by done. lia.
  - exists 1. rewrite ssh_exact by done. lia.
  - apply list_elem_of_lookup in Hp as [i Hi].
    assert (Hlt : (i < Z.to_nat (NumSecondaryPorts cfg))%nat).
    { apply lookup_lt_Some in Hi. unfold secondaryPorts in Hi.
      rewrite length_fmap, length_seq in Hi. exact Hi. }
    rewrite secondaryPorts_lookup in Hi by lia.
    injection Hi as <-. exists (Z.of_nat i + 2). lia.
Qed.

End NoWrap.

(** * The slot invariant *)

Lemma elem_of_initial_ports cfg s :
  s ∈ initial_ports cfg <-> 0 <= s < NumContainers cfg.
Proof.
  unfold initial_ports. rewrite list_elem_of_fmap. split.
  - intros (n & -> & Hn). apply elem_of_seq in Hn. lia.
  - intros Hs. exists (Z.to_nat s). split; [lia|]. apply elem_of_seq. lia.
Qed.

Lemma NoDup_initial_ports cfg : NoDup (initial_ports cfg).
Proof.
  unfold initial_ports. apply NoDup_fmap_2; [|apply NoDup_seq].
  intros a b. lia.
Qed.

Lemma length_initial_ports cfg :
  length (initial_ports cfg) = Z.to_nat (NumContainers cfg).
Proof. unfold initial_ports. by rewrite length_fmap, length_seq. Qed.

Lemma initial_ports_lookup cfg (i : nat) :
  Z.of_nat i < NumContainers cfg ->
  initial_ports cfg !! i = Some (Z.of_nat i).
Proof.
  intros Hi. unfold initial_ports.
  rewrite list_lookup_fmap, lookup_seq_lt by lia. reflexivity.
Qed.

Lemma occupied_insert cfg st id c :
  containers st !! id = None ->
  occupied cfg (set_containers <[id := c]> st) ≡ₚ slot_of cfg c :: occupied cfg st.
Proof.
  intros Hid. unfold occupied. simpl.
  rewrite map_to_list_insert by exact Hid. reflexivity.
Qed.

Lemma occupied_delete cfg st id c :
  containers st !! id = Some c ->
  occupied cfg st ≡ₚ slot_of cfg c :: occupied cfg (set_containers (delete id) st).
Proof.
  intros Hid. unfold occupied. simpl.
  rewrite <- (map_to_list_delete (containers st) id c) by exact Hid. reflexivity.
Qed.

Lemma occupied_elem cfg st id c :
  containers st !! id = Some c -> slot_of cfg c ∈ occupied cfg st.
Proof.
  intros Hid. unfold occupied. apply list_elem_of_fmap.
  exists (id, c). split; [reflexivity|]. by apply elem_of_map_to_list.
Qed.

Lemma length_occupied cfg st : length (occupied cfg st) = size (containers st).
Proof. unfold occupied. by rewrite length_fmap, length_map_to_list. Qed.

Section SlotInvariant.

Context (cfg : Config).
Hypothesis Hcfg : Config_ok cfg.

Lemma partition_range st s :
  ports st ++ occupied cfg st ≡ₚ initial_ports cfg ->
  s ∈ ports st ++ occupied cfg st ->
  0 <= s < NumContainers cfg /\ is_u16 s.
Proof.
  intros Hp Hs. rewrite Hp in Hs. apply elem_of_initial_ports in Hs.
  destruct Hcfg as (Hn & _). unfold is_u16 in *. lia.
Qed.

Lemma partition_size st :
  ports st ++ occupied cfg st ≡ₚ initial_ports cfg ->
  (length (ports st) + size (containers st))%nat = Z.to_nat (NumContainers cfg).
Proof.
  intros Hp. apply Permutation_length in Hp.
  rewrite length_app, length_occupied, length_initial_ports in Hp. exact Hp.
Qed.

Lemma partition_fresh :
  ports (startup cfg None None) ++ occupied cfg (startup cfg None None)
    ≡ₚ initial_ports cfg.
Proof.
  simpl. unfold occupied. simpl. rewrite map_to_list_empty. simpl.
  by rewrite app_nil_r.
Qed.

Lemma slots_inv_fresh : slots_inv cfg (startup cfg None None).
Proof. split; [apply partition_fresh | apply map_Forall_empty]. Qed.

Lemma slots_inv_restart st :
  slots_inv cfg st ->
  slots_inv cfg (startup cfg (Some (containers st)) (Some (ports st))).
Proof. intros [Hp Hd]. split; [exact Hp | exact Hd]. Qed.

Lemma partition_reserved id m st port rest :
  ports st ++ occupied cfg st ≡ₚ initial_ports cfg ->
  containers st !! id = None ->
  ports st = port :: rest ->
  ports (reserved cfg id m st port rest)
    ++ occupied cfg (reserved cfg id m st port rest) ≡ₚ initial_ports cfg.
Proof.
  intros Hp Hid Hports.
  assert (Hport : is_u16 port).
  { apply (partition_range st); [exact Hp|]. rewrite Hports. set_solver. }
  change (rest ++ occupied cfg (set_containers
            <[id := newContainer cfg id m port]> st) ≡ₚ initial_ports cfg).
  rewrite occupied_insert by exact Hid.
  rewrite slot_of_newContainer by exact Hport.
  rewrite <- Hp, Hports. simpl. by rewrite Permutation_middle.
Qed.

Lemma partition_torn_down id c st :
  ports st ++ occupied cfg st ≡ₚ initial_ports cfg ->
  containers st !! id = Some c ->
  ports (torn_down cfg id c st) ++ occupied cfg (torn_down cfg id c st)
    ≡ₚ initial_ports cfg.
Proof.
  intros Hp Hid.
  change ((ports st ++ [slot_of cfg c]) ++
            occupied cfg (set_containers (delete id) st) ≡ₚ initial_ports cfg).
  rewrite <- Hp, (occupied_delete cfg st id c) by exact Hid.
  rewrite <- app_assoc. reflexivity.
Qed.

Lemma refusal_None_fresh_id id m st :
  refusal cfg id m st = None -> containers st !! id = None.
Proof.
  unfold refusal. intros Hr. split_checks Hr.
  by apply eq_None_not_Some.
Qed.

Lemma partition_serve r st st' log :
  ports st ++ occupied cfg st ≡ₚ initial_ports cfg ->
  serve cfg r st = Done tt st' log ->
  ports st' ++ occupied cfg st' ≡ₚ initial_ports cfg.
Proof.
  intros Hinv Hrun. destruct r as [req | [id]]; simpl in Hrun.
  - apply reserve_Done in Hrun
      as [(e & -> & _) | (m & port & rest & Hm & Hr & Hp & -> & _)]; [done|].
    apply partition_reserved; [done | by eapply refusal_None_fresh_id | done].
  - destruct (containers st !! id) as [c|] eqn:Hid.
    + rewrite (teardown_active _ _ _ _ Hid) in Hrun. simplify_eq.
      by apply partition_torn_down.
    + rewrite (teardown_absent _ _ _ Hid) in Hrun. by simplify_eq.
Qed.

Lemma slots_inv_serve r st st' log :
  slots_inv cfg st ->
  serve cfg r st = Done tt st' log ->
  slots_inv cfg st'.
Proof.
  intros [Hpart Hd] Hrun.
  split; [by eapply partition_serve|].
  destruct r as [req | [id]]; simpl in Hrun.
  - apply reserve_Done in Hrun
      as [(e & -> & _) | (m & port & rest & Hm & Hr & Hp & -> & _)]; [done|].
    simpl. apply map_Forall_insert_2; [|exact Hd].
    rewrite slot_of_newContainer; [done|].
    apply (partition_range st); [exact Hpart|]. rewrite Hp. set_solver.
  - destruct (containers st !! id) as [c|] eqn:Hid.
    + rewrite (teardown_active _ _ _ _ Hid) in Hrun. simplify_eq.
      simpl. by apply map_Forall_delete.
    + rewrite (teardown_absent _ _ _ Hid) in Hrun. by simplify_eq.
Qed.

(** An admitted request finds a free slot: [ports[0]] does not panic. *)
Lemma partition_admitted id m st :
  ports st ++ occupied cfg st ≡ₚ initial_ports cfg ->
  refusal cfg id m st = None ->
  exists port rest, ports st = port :: rest.
Proof.
  intros Hinv Hr. apply partition_size in Hinv.
  destruct (ports st) as [|p rest] eqn:Hp; [|by eauto].
  unfold refusal in Hr. case_bool_decide as Hfull; [discriminate Hr|].
  simpl in Hinv. destruct Hcfg as (Hn & _). unfold is_u16 in Hn. lia.
Qed.

End SlotInvariant.

(** * The counter invariant *)

Lemma total_cpu_empty : total_cpu ∅ = 0.
Proof. apply map_fold_empty. Qed.

Lemma total_memory_empty : total_memory ∅ = 0.
Proof. apply map_fold_empty. Qed.

Lemma total_cpu_insert cs id c :
  cs !! id = None ->
  total_cpu (<[id := c]> cs) = total_cpu cs + types.CPUShares (Manifest c).
Proof. intros Hid. unfold total_cpu. rewrite map_fold_insert_L; [done | intros; lia | done]. Qed.

Lemma total_memory_insert cs id c :
  cs !! id = None ->
  total_memory (<[id := c]> cs) = total_memory cs + types.MemoryLimit (Manifest c).
Proof. intros Hid. unfold total_memory. rewrite map_fold_insert_L; [done | intros; lia | done]. Qed.

Lemma total_cpu_delete cs id c :
  cs !! id = Some c ->
  total_cpu cs = total_cpu (delete id cs) + types.CPUShares (Manifest c).
Proof.
  intros Hid. rewrite <- (insert_delete_id cs id c) at 1 by exact Hid.
  apply total_cpu_insert, lookup_delete_eq.
Qed.

Lemma total_memory_delete cs id c :
  cs !! id = Some c ->
  total_memory cs = total_memory (delete id cs) + types.MemoryLimit (Manifest c).
Proof.
  intros Hid. rewrite <- (insert_delete_id cs id c) at 1 by exact Hid.
  apply total_memory_insert, lookup_delete_eq.
Qed.


Lemma total_cpu_nonneg cs : manifests_ok cs -> 0 <= total_cpu cs.
Proof.
  induction cs as [|id c cs Hid IH] using map_ind; intros Hok.
  - by rewrite total_cpu_empty.
  - rewrite total_cpu_insert by exact Hid.
    apply map_Forall_insert in Hok as [[Hc _] Hok]; [|exact Hid].
    unfold is_u64 in Hc. specialize (IH Hok). lia.
Qed.

Lemma total_memory_nonneg cs : manifests_ok cs -> 0 <= total_memory cs.
Proof.
  induction cs as [|id c cs Hid IH] using map_ind; intros Hok.
  - by rewrite total_memory_empty.
  - rewrite total_memory_insert by exact Hid.
    apply map_Forall_insert in Hok as [[_ Hc] Hok]; [|exact Hid].
    unfold is_u64 in Hc. specialize (IH Hok). lia.
Qed.

(** The loops of [containerManager] add in [uint]: what they leave in the
    counters is the sum reduced modulo [2^64]. *)
Lemma startup_cpu_wrap cs :
  map_fold (fun _ cont u => add64 u (types.CPUShares (Manifest cont))) 0 cs
  = wrap64 (total_cpu cs).
Proof.
  induction cs as [|id c cs Hid IH] using map_ind.
  - by rewrite total_cpu_empty, !map_fold_empty.
  - rewrite total_cpu_insert by exact Hid.
    rewrite map_fold_insert_L; [| |exact Hid].
    + rewrite IH. apply add64_wrap_l.
    + intros. unfold add64, wrap64.
      rewrite !Zplus_mod_idemp_l. f_equal. lia.
Qed.

Lemma startup_memory_wrap cs :
  map_fold (fun _ cont u => add64 u (types.MemoryLimit (Manifest cont))) 0 cs
  = wrap64 (total_memory cs).
Proof.
  induction cs as [|id c cs Hid IH] using map_ind.
  - by rewrite total_memory_empty, !map_fold_empty.
  - rewrite total_memory_insert by exact Hid.
    rewrite map_fold_insert_L; [| |exact Hid].
    + rewrite IH. apply add64_wrap_l.
    + intros. unfold add64, wrap64.
      rewrite !Zplus_mod_idemp_l. f_equal. lia.
Qed.



Section CounterInvariant.

Context (cfg : Config).
Hypothesis Hcfg : Config_ok cfg.

Lemma counters_inv_startup lc lp :
  manifests_ok (default ∅ lc) ->
  total_cpu (default ∅ lc) <= CPUShares cfg ->
  total_memory (default ∅ lc) <= MemoryLimit cfg ->
  counters_inv cfg (startup cfg lc lp).
Proof.
  intros Hok Hc Hm.
  destruct Hcfg as (_ & _ & _ & Hcpu & Hmem). unfold is_u64 in *.
  pose proof (total_cpu_nonneg _ Hok). pose proof (total_memory_nonneg _ Hok).
  split; simpl; try done.
  - rewrite startup_cpu_wrap. apply wrap64_small. unfold is_u64. lia.
  - rewrite startup_memory_wrap. apply wrap64_small. unfold is_u64. lia.
Qed.

Lemma counters_inv_reserved req m st port rest :
  counters_inv cfg st ->
  r_manifest req = Some m ->
  fits cfg (ReqReserve req) ->
  refusal cfg (r_id req) m st = None ->
  counters_inv cfg (reserved cfg (r_id req) m st port rest).
Proof.
  intros [Hok Hc Hcl Hm Hml] Hman Hfit Hr.
  simpl in Hfit. rewrite Hman in Hfit. destruct Hfit as (Hreq & Hfc & Hfm).
  pose proof (refusal_None_fresh_id cfg _ m st Hr) as Hid.
  pose proof (total_cpu_nonneg _ Hok). pose proof (total_memory_nonneg _ Hok).
  destruct Hreq as [Hrc Hrm]. unfold is_u64 in *.
  unfold refusal in Hr. repeat case_bool_decide; try discriminate Hr.
  destruct (_ >? _) eqn:Hcpu in Hr; [discriminate Hr|].
  destruct (_ >? _) eqn:Hmem in Hr; [discriminate Hr|].
  unfold add64 in Hcpu, Hmem.
  rewrite wrap64_small in Hcpu by (unfold is_u64; lia).
  rewrite wrap64_small in Hmem by (unfold is_u64; lia).
  split; simpl.
  - apply map_Forall_insert_2; [done | exact Hok].
  - rewrite total_cpu_insert by exact Hid. simpl.
    unfold add64. rewrite wrap64_small by (unfold is_u64; lia). lia.
  - rewrite total_cpu_insert by exact Hid. simpl. lia.
  - rewrite total_memory_insert by exact Hid. simpl.
    unfold add64. rewrite wrap64_small by (unfold is_u64; lia). lia.
  - rewrite total_memory_insert by exact Hid. simpl. lia.
Qed.

Lemma counters_inv_torn_down id c st :
  counters_inv cfg st ->
  containers st !! id = Some c ->
  counters_inv cfg (torn_down cfg id c st).
Proof.
  intros [Hok Hc Hcl Hm Hml] Hid.
  assert (Hok' : manifests_ok (delete id (containers st)))
    by (by apply map_Forall_delete).
  pose proof (total_cpu_nonneg _ Hok'). pose proof (total_memory_nonneg _ Hok').
  pose proof (total_cpu_delete _ _ _ Hid) as Hdc.
  pose proof (total_memory_delete _ _ _ Hid) as Hdm.
  destruct (Hok _ _ Hid) as [Hcc Hcm].
  destruct Hcfg as (_ & _ & _ & Hcpu & Hmem). unfold is_u64 in *.
  split; simpl.
  - exact Hok'.
  - unfold sub64. rewrite wrap64_small by (unfold is_u64; lia). lia.
  - lia.
  - unfold sub64. rewrite wrap64_small by (unfold is_u64; lia). lia.
  - lia.
Qed.

Lemma counters_inv_serve r st st' log :
  counters_inv cfg st ->
  fits cfg r ->
  serve cfg r st = Done tt st' log ->
  counters_inv cfg st'.
Proof.
  intros Hinv Hfit Hrun. destruct r as [req | [id]]; simpl in Hrun.
  - apply reserve_Done in Hrun
      as [(e & -> & _) | (m & port & rest & Hm & Hr & Hp & -> & _)]; [done|].
    by apply counters_inv_reserved.
  - destruct (containers st !! id) as [c|] eqn:Hid.
    + rewrite (teardown_active _ _ _ _ Hid) in Hrun. simplify_eq.
      by apply counters_inv_torn_down.
    + rewrite (teardown_absent _ _ _ Hid) in Hrun. by simplify_eq.
Qed.

Lemma serve_all_cons r rs st st' log :
  serve_all cfg (r :: rs) st = Done tt st' log ->
  exists st1 l1 l2,
    serve cfg r st = Done tt st1 l1 /\
    serve_all cfg rs st1 = Done tt st' l2 /\ log = l1 ++ l2.
Proof.
  simpl. unfold mbind, M_bind, bind.
  destruct (serve cfg r st) as [[] st1 l1|]; [|done].
  destruct (serve_all cfg rs st1) as [[] st2 l2|] eqn:H2; [|done].
  intros Heq. injection Heq as <- <-. exists st1, l1, l2. done.
Qed.

Lemma counters_inv_serve_all rs st st' log :
  counters_inv cfg st ->
  Forall (fits cfg) rs ->
  serve_all cfg rs st = Done tt st' log ->
  counters_inv cfg st'.
Proof.
  revert st log. induction rs as [|r rs IH]; intros st log Hinv Hfit Hrun.
  - simpl in Hrun. unfold mret, M_ret, ret in Hrun. by simplify_eq.
  - apply serve_all_cons in Hrun as (st1 & l1 & l2 & H1 & H2 & _).
    apply Forall_cons in Hfit as [Hr Hrs].
    eapply IH; [|exact Hrs|exact H2].
    by eapply counters_inv_serve.
Qed.

End CounterInvariant.

(** The slot invariants along a run of the manager. *)
Lemma partition_serve_all cfg rs st st' log :
  Config_ok cfg ->
  ports st ++ occupied cfg st ≡ₚ initial_ports cfg ->
  serve_all cfg rs st = Done tt st' log ->
  ports st' ++ occupied cfg st' ≡ₚ initial_ports cfg.
Proof.
  intros Hcfg. revert st log. induction rs as [|r rs IH]; intros st log Hinv Hrun.
  - simpl in Hrun. unfold mret, M_ret, ret in Hrun. by simplify_eq.
  - apply serve_all_cons in Hrun as (st1 & l1 & l2 & H1 & H2 & _).
    eapply IH; [|exact H2]. by eapply partition_serve.
Qed.

Lemma slots_inv_serve_all cfg rs st st' log :
  Config_ok cfg ->
  slots_inv cfg st ->
  serve_all cfg rs st = Done tt st' log ->
  slots_inv cfg st'.
Proof.
  intros Hcfg. revert st log. induction rs as [|r rs IH]; intros st log Hinv Hrun.
  - simpl in Hrun. unfold mret, M_ret, ret in Hrun. by simplify_eq.
  - apply serve_all_cons in Hrun as (st1 & l1 & l2 & H1 & H2 & _).
    eapply IH; [|exact H2]. by eapply slots_inv_serve.
Qed.

(** * Persistence after a transition *)

(** [reserve] never calls [save], whatever it answers. *)
Lemma reserve_never_saves cfg req st st' log :
  reserve cfg req st = Done tt st' log -> forallb (fun e => negb (is_save e)) log = true.
Proof.
  intros Hrun.
  apply reserve_Done in Hrun
    as [(e & _ & -> & _) | (m & port & rest & _ & _ & _ & _ & ->)]; reflexivity.
Qed.

(** C1, at the input where it fails.  On the fresh four-slot registry the
    reservation of "a" is granted: the container is stored, slot 0 leaves
    the free list, both counters grow, and the only action the handler
    performs is sending the response; [save] is not called.  The teardown
    of the same container calls [save], with the new map and free list,
    before it sends [true]. *)
Theorem reserve_grant_is_not_saved :
  reserve Sample.cfg4 (Sample.req "a" 1 64) Sample.fresh4
    = Done tt Sample.one4
        [EvReserveResp
           {| container := Some (newContainer Sample.cfg4 "a" (Sample.manifest 1 64) 0);
              err := None |}]
  /\ Sample.one4 <> Sample.fresh4
  /\ containers Sample.one4 !! "a"
       = Some (newContainer Sample.cfg4 "a" (Sample.manifest 1 64) 0)
  /\ teardown Sample.cfg4 {| t_id := "a" |} Sample.one4
       = Done tt (torn_down Sample.cfg4 "a"
                    (newContainer Sample.cfg4 "a" (Sample.manifest 1 64) 0) Sample.one4)
           [EvTeardownHook (newContainer Sample.cfg4 "a" (Sample.manifest 1 64) 0);
            EvSave ∅ [1; 2; 3; 0];
            EvTeardownResp true].
Proof.
  split; [|split; [|split]].
  - apply reserve_granted; reflexivity.
  - intros Heq. apply (f_equal ports) in Heq. discriminate Heq.
  - reflexivity.
  - rewrite (teardown_active Sample.cfg4 "a"
               (newContainer Sample.cfg4 "a" (Sample.manifest 1 64) 0));
      [|reflexivity].
    reflexivity.
Qed.

(** * Refusals of [reserve] *)

(** C5.  [reserve] tests slot capacity, then the id, then CPU shares, then
    memory; the first test that fails fixes the error it answers, and
    whenever it answers an error the container map, the free list and both
    counters are those it started from.  The first two tests do not read
    the manifest; the last two are stated for a request that carries one. *)
Theorem reserve_check_order cfg req st :
  let full := Z.of_nat (size (containers st)) >= NumContainers cfg in
  let taken := is_Some (containers st !! r_id req) in
  let cpu m := add64 (types.CPUShares m) (usedCPUShares st) > CPUShares cfg in
  let memory m :=
    add64 (types.MemoryLimit m) (usedMemoryLimit st) > MemoryLimit cfg in
  let answers e :=
    reserve cfg req st = Done tt st [EvReserveResp {| container := None; err := Some e |}] in
  (full -> answers ErrNoFree) /\
  (~ full -> taken -> answers (ErrIdInUse (r_id req))) /\
  (forall m, r_manifest req = Some m -> ~ full -> ~ taken -> cpu m ->
     answers (ErrCPU (types.CPUShares m)
                     (sub64 (CPUShares cfg) (usedCPUShares st)))) /\
  (forall m, r_manifest req = Some m -> ~ full -> ~ taken -> ~ cpu m -> memory m ->
     answers (ErrMemory (types.MemoryLimit m)
                        (sub64 (MemoryLimit cfg) (usedMemoryLimit st)))) /\
  (forall st' log r e,
     reserve cfg req st = Done tt st' log ->
     EvReserveResp r ∈ log -> err r = Some e ->
     st' = st /\ container r = None).
Proof.
  intros full taken cpu memory answers. subst full taken cpu memory answers.
  simpl. split; [|split; [|split; [|split]]].
  - intros H. apply reserve_early_refused. unfold early_refusal.
    by rewrite bool_decide_eq_true_2.
  - intros H1 H2. apply reserve_early_refused. unfold early_refusal.
    rewrite bool_decide_eq_false_2 by done. by rewrite bool_decide_eq_true_2.
  - intros m Hm H1 H2 H3. apply (reserve_refused _ _ m); [exact Hm|].
    unfold refusal. rewrite !bool_decide_eq_false_2 by done.
    apply Z.gt_lt, Z.gtb_lt in H3. by rewrite H3.
  - intros m Hm H1 H2 H3 H4. apply (reserve_refused _ _ m); [exact Hm|].
    unfold refusal. rewrite !bool_decide_eq_false_2 by done.
    apply Z.gt_lt, Z.gtb_lt in H4. rewrite H4.
    destruct (add64 (types.CPUShares _) _ >? _) eqn:Hc; [|done].
    apply Z.gtb_lt in Hc. lia.
  - intros st' log r e Hrun Hin Herr.
    apply reserve_Done in Hrun
      as [(e' & -> & -> & _) | (m & port & rest & _ & _ & _ & -> & ->)];
      apply list_elem_of_singleton in Hin; injection Hin as ->; simpl in *;
      [done | discriminate Herr].
Qed.

(** Each refusal, at a state where every later test would fail as well:
    a full registry answers the lack of slots for a known id asking for
    too much; with a slot free a known id is refused before the amounts
    are looked at; CPU shares are refused before memory. *)
Lemma reserve_check_order_witness :
  reserve Sample.cfg2 (Sample.req "a" 100 4096) Sample.full2
    = Done tt Sample.full2
        [EvReserveResp {| container := None; err := Some ErrNoFree |}]
  /\ reserve Sample.cfg4 (Sample.req "a" 100 4096) Sample.one4
    = Done tt Sample.one4
        [EvReserveResp {| container := None; err := Some (ErrIdInUse "a") |}]
  /\ reserve Sample.cfg4 (Sample.req "c" 8 4096) Sample.two4
    = Done tt Sample.two4
        [EvReserveResp {| container := None; err := Some (ErrCPU 8 7) |}]
  /\ reserve Sample.cfg4 (Sample.req "c" 7 4096) Sample.two4
    = Done tt Sample.two4
        [EvReserveResp {| container := None; err := Some (ErrMemory 4096 832) |}].
Proof.
  split; [|split; [|split]].
  - apply (proj1 (reserve_check_order Sample.cfg2 (Sample.req "a" 100 4096)
                    Sample.full2)).
    vm_compute. intros H. discriminate H.
  - apply (proj1 (proj2 (reserve_check_order Sample.cfg4 (Sample.req "a" 100 4096)
                           Sample.one4))).
    + vm_compute. intros H. apply H. reflexivity.
    + vm_compute. eauto.
  - apply (proj1 (proj2 (proj2 (reserve_check_order Sample.cfg4 (Sample.req "c" 8 4096)
                                  Sample.two4))) (Sample.manifest 8 4096)).
    + reflexivity.
    + vm_compute. intros H. apply H. reflexivity.
    + vm_compute. intros [x Hx]. discriminate Hx.
    + vm_compute. reflexivity.
  - apply (proj1 (proj2 (proj2 (proj2 (reserve_check_order Sample.cfg4
                                         (Sample.req "c" 7 4096) Sample.two4))))
             (Sample.manifest 7 4096)).
    + reflexivity.
    + vm_compute. intros H. apply H. reflexivity.
    + vm_compute. intros [x Hx]. discriminate Hx.
    + vm_compute. intros H. discriminate H.
    + vm_compute. reflexivity.
Defined.

(** * Teardown *)

(** C6.  [teardown] answers [false] exactly when the id is not active, and
    then leaves the whole state as it was.  For an active id it runs the
    container's hook, appends the slot [PrimaryPort - MinPort] to the free
    list, takes the container's CPU shares and memory off the counters,
    removes the id from the map, saves, and answers [true]. *)
Theorem teardown_spec cfg st id :
  (teardown_answer (teardown cfg {| t_id := id |} st) = Some false
     <-> containers st !! id = None) /\
  (containers st !! id = None ->
     teardown cfg {| t_id := id |} st = Done tt st [EvTeardownResp false]) /\
  (forall c, containers st !! id = Some c ->
     exists st',
       teardown cfg {| t_id := id |} st
         = Done tt st' [EvTeardownHook c; EvSave (containers st') (ports st');
                        EvTeardownResp true] /\
       containers st' = delete id (containers st) /\
       ports st' = ports st ++ [sub16 (PrimaryPort c) (MinPort cfg)] /\
       usedCPUShares st' = sub64 (usedCPUShares st) (types.CPUShares (Manifest c)) /\
       usedMemoryLimit st' = sub64 (usedMemoryLimit st) (types.MemoryLimit (Manifest c)) /\
       (0 <= types.CPUShares (Manifest c) <= usedCPUShares st ->
        usedCPUShares st < mod64 ->
        usedCPUShares st' = usedCPUShares st - types.CPUShares (Manifest c)) /\
       (0 <= types.MemoryLimit (Manifest c) <= usedMemoryLimit st ->
        usedMemoryLimit st < mod64 ->
        usedMemoryLimit st' = usedMemoryLimit st - types.MemoryLimit (Manifest c))).
Proof.
  split; [|split].
  - destruct (containers st !! id) as [c|] eqn:Hid.
    + rewrite (teardown_active _ _ _ _ Hid). simpl. split; intros H; discriminate H.
    + rewrite (teardown_absent _ _ _ Hid). simpl. done.
  - apply teardown_absent.
  - intros c Hid. exists (torn_down cfg id c st).
    split; [by apply teardown_active|]. simpl. repeat split.
    + intros H H'. unfold sub64. apply wrap64_small. unfold is_u64. lia.
    + intros H H'. unfold sub64. apply wrap64_small. unfold is_u64. lia.
Qed.

Lemma teardown_spec_witness :
  teardown Sample.cfg4 {| t_id := "zz" |} Sample.two4
    = Done tt Sample.two4 [EvTeardownResp false]
  /\ exists st',
       teardown Sample.cfg4 {| t_id := "a" |} Sample.two4
         = Done tt st'
             [EvTeardownHook (newContainer Sample.cfg4 "a" (Sample.manifest 1 64) 0);
              EvSave (containers st') (ports st'); EvTeardownResp true]
       /\ ports st' = [2; 3; 0] /\ usedCPUShares st' = 2 /\ usedMemoryLimit st' = 128
       /\ containers st' !! "a" = None.
Proof.
  split.
  - apply (proj1 (proj2 (teardown_spec Sample.cfg4 Sample.two4 "zz"))).
    reflexivity.
  - destruct (proj2 (proj2 (teardown_spec Sample.cfg4 Sample.two4 "a"))
                (newContainer Sample.cfg4 "a" (Sample.manifest 1 64) 0) eq_refl)
      as (st' & Hrun & Hc & Hp & Hcpu & Hmem & _).
    exists st'. split; [exact Hrun|].
    rewrite Hp, Hcpu, Hmem, Hc. repeat split.
Defined.

(** * Slots and ports *)

Lemma run_two4 :
  containerManager Sample.cfg4 None None Sample3.requests_two4
    = Done tt Sample.two4 Sample3.log_two4.
Proof. vm_compute. reflexivity. Qed.

Lemma Config_ok_cfg4 : Config_ok Sample.cfg4.
Proof. vm_compute. repeat split; intros H; discriminate H. Qed.

(** C7 as stated fails on starts the manager accepts.  Started on a
    container snapshot holding "a" on slot 0 while the free-list snapshot
    does not load, it refills the free list with every slot: slot 0 is
    free and occupied at once and five slots are accounted for out of
    four.  Started under four slots on the map and free list a registry of
    three slots saved, slot 3 is neither free nor occupied and only three
    slots are accounted for. *)
Lemma slots_partition_counterexample :
  (let st := startup Sample.cfg4 (Some Sample3.snapshot_a) None in
   containerManager Sample.cfg4 (Some Sample3.snapshot_a) None [] = Done tt st [] /\
   (0 ∈ ports st) /\ (0 ∈ occupied Sample.cfg4 st) /\
   Z.of_nat (length (ports st)) + Z.of_nat (size (containers st)) = 5 /\
   NumContainers Sample.cfg4 = 4) /\
  (let st := startup Sample.cfg4 (Some Sample3.snapshot3) (Some [2; 1]) in
   containerManager Sample.cfg4 (Some Sample3.snapshot3) (Some [2; 1]) []
     = Done tt st [] /\
   (3 ∉ ports st) /\ (3 ∉ occupied Sample.cfg4 st) /\
   Z.of_nat (length (ports st)) + Z.of_nat (size (containers st)) = 3).
Proof.
  split.
  - assert (Hocc : occupied Sample.cfg4
                     (startup Sample.cfg4 (Some Sample3.snapshot_a) None) = [0])
      by (vm_compute; reflexivity).
    assert (Hports : ports (startup Sample.cfg4 (Some Sample3.snapshot_a) None)
                     = [0; 1; 2; 3]) by reflexivity.
    cbv zeta. rewrite Hocc, Hports. split; [reflexivity|].
    split; [by apply (bool_decide_unpack _)|].
    split; [by apply (bool_decide_unpack _)|]. split; reflexivity.
  - assert (Hocc : occupied Sample.cfg4
                     (startup Sample.cfg4 (Some Sample3.snapshot3) (Some [2; 1])) = [0])
      by (vm_compute; reflexivity).
    assert (Hports : ports (startup Sample.cfg4 (Some Sample3.snapshot3) (Some [2; 1]))
                     = [2; 1]) by reflexivity.
    cbv zeta. rewrite Hocc, Hports. split; [reflexivity|].
    split; [by apply (bool_decide_unpack _)|].
    split; [by apply (bool_decide_unpack _)|]. reflexivity.
Qed.

(** C7, amended.  Let the manager start on a map and a free list (the
    decoded snapshots, or what the code puts in place of a missing one)
    such that the free list followed by the slots of the loaded containers
    is a rearrangement of [0 .. NumContainers - 1].  A start with nothing
    on disk is such a start.  Then in every state it reaches by serving
    reservations and teardowns the same holds: no slot is both free and
    occupied or listed twice, the slots listed are exactly those below
    [NumContainers], there are never more active containers than slots,
    free and occupied slots together always number [NumContainers], and a
    restart on the map and free list of that state is again such a start. *)
Theorem slots_partition cfg :
  Config_ok cfg ->
  ports (startup cfg None None) ++ occupied cfg (startup cfg None None)
    ≡ₚ initial_ports cfg /\
  (forall lc lp rs st log,
     ports (startup cfg lc lp) ++ occupied cfg (startup cfg lc lp)
       ≡ₚ initial_ports cfg ->
     containerManager cfg lc lp rs = Done tt st log ->
     ports st ++ occupied cfg st ≡ₚ initial_ports cfg /\
     NoDup (ports st ++ occupied cfg st) /\
     (forall s, s ∈ ports st -> s ∉ occupied cfg st) /\
     (forall s, s ∈ ports st \/ s ∈ occupied cfg st <-> 0 <= s < NumContainers cfg) /\
     Z.of_nat (size (containers st)) <= NumContainers cfg /\
     Z.of_nat (length (ports st)) + Z.of_nat (size (containers st))
       = NumContainers cfg /\
     ports (startup cfg (Some (containers st)) (Some (ports st)))
       ++ occupied cfg (startup cfg (Some (containers st)) (Some (ports st)))
       ≡ₚ initial_ports cfg).
Proof.
  intros Hcfg. split; [apply partition_fresh|].
  intros lc lp rs st log Hstart Hrun.
  pose proof (partition_serve_all cfg rs _ _ _ Hcfg Hstart Hrun) as Hp.
  pose proof (partition_size cfg st Hp) as Hsize.
  assert (Hnd : NoDup (ports st ++ occupied cfg st))
    by (rewrite Hp; apply NoDup_initial_ports).
  destruct Hcfg as (Hn & _). unfold is_u16 in Hn.
  split; [exact Hp|]. split; [exact Hnd|].
  split; [|split; [|split; [|split]]].
  - apply NoDup_app in Hnd as (_ & Hdisj & _). exact Hdisj.
  - intros s. rewrite <- elem_of_app, Hp. apply elem_of_initial_ports.
  - lia.
  - lia.
  - exact Hp.
Qed.

Lemma slots_partition_witness :
  NoDup (ports Sample.two4 ++ occupied Sample.cfg4 Sample.two4) /\
  Z.of_nat (length (ports Sample.two4)) + Z.of_nat (size (containers Sample.two4)) = 4.
Proof.
  destruct (proj2 (slots_partition Sample.cfg4 Config_ok_cfg4)
              None None Sample3.requests_two4 Sample.two4 Sample3.log_two4
              (proj1 (slots_partition Sample.cfg4 Config_ok_cfg4)) run_two4)
    as (_ & Hnd & _ & _ & _ & Hsum & _).
  split; [exact Hnd | exact Hsum].
Defined.

Lemma occupied_distinct cfg st id1 id2 c1 c2 :
  NoDup (occupied cfg st) ->
  id1 <> id2 ->
  containers st !! id1 = Some c1 ->
  containers st !! id2 = Some c2 ->
  slot_of cfg c1 <> slot_of cfg c2.
Proof.
  intros Hnd Hne H1 H2 Heq.
  rewrite (occupied_delete cfg st id1 c1 H1) in Hnd.
  apply NoDup_cons in Hnd as [Hnotin _]. apply Hnotin. rewrite Heq.
  apply (occupied_elem cfg _ id2). simpl. by rewrite lookup_delete_ne.
Qed.

(** C4 as stated fails on starts the manager accepts, with a
    configuration inside the bound of [Init].  Started on a container
    snapshot holding "a" on slot 0 while the free-list snapshot does not
    load, it hands slot 0 out again and "b" gets every port of "a".
    Started under four slots on the map and free list a registry of three
    slots saved, "b" gets 1006 as its SSH port, which "a" holds as a
    secondary port. *)
Lemma active_ports_counterexample :
  port_span Sample.cfg4 <= 65535 /\
  (exists st log ca cb,
     containerManager Sample.cfg4 (Some Sample3.snapshot_a) None
       [ReqReserve (Sample.req "b" 2 128)] = Done tt st log /\
     containers st !! "a" = Some ca /\ containers st !! "b" = Some cb /\
     all_ports ca = [1000; 1004; 1008; 1012] /\
     all_ports cb = [1000; 1004; 1008; 1012]) /\
  (exists st log ca cb,
     containerManager Sample.cfg4 (Some Sample3.snapshot3) (Some [2; 1])
       [ReqReserve (Sample.req "b" 2 128)] = Done tt st log /\
     containers st !! "a" = Some ca /\ containers st !! "b" = Some cb /\
     all_ports ca = [1000; 1003; 1006; 1009] /\
     all_ports cb = [1002; 1006; 1010; 1014]).
Proof.
  split; [vm_compute; intros H; discriminate H|]. split.
  - eexists _, _, _, _. split; [vm_compute; reflexivity|].
    split; [reflexivity|]. split; [reflexivity|]. split; reflexivity.
  - eexists _, _, _, _. split; [vm_compute; reflexivity|].
    split; [reflexivity|]. split; [reflexivity|]. split; reflexivity.
Qed.

(** C4, amended.  Let the configuration pass the bound of [Init] and let
    the manager start on a map and a free list such that the free list
    followed by the slots of the loaded containers is a rearrangement of
    [0 .. NumContainers - 1] and every loaded container holds the ports
    [reserve] derives from its slot under this configuration.  A start
    with nothing on disk is such a start.  Then in every state it reaches
    by serving reservations and teardowns, two different active
    containers have no port in common: no port of one (primary, SSH or
    secondary) is a port of the other; and a restart on the map and free
    list of that state is again such a start. *)
Theorem active_ports_disjoint cfg :
  Config_ok cfg ->
  port_span cfg <= 65535 ->
  slots_inv cfg (startup cfg None None) /\
  (forall lc lp rs st log,
     slots_inv cfg (startup cfg lc lp) ->
     containerManager cfg lc lp rs = Done tt st log ->
     (forall id1 id2 c1 c2 p,
        id1 <> id2 ->
        containers st !! id1 = Some c1 ->
        containers st !! id2 = Some c2 ->
        p ∈ all_ports c1 -> p ∉ all_ports c2) /\
     slots_inv cfg (startup cfg (Some (containers st)) (Some (ports st)))).
Proof.
  intros Hcfg Hspan. split; [by apply slots_inv_fresh|].
  intros lc lp rs st log Hstart Hrun.
  pose proof (slots_inv_serve_all cfg rs _ _ _ Hcfg Hstart Hrun) as Hinv.
  split; [|by apply slots_inv_restart].
  intros id1 id2 c1 c2 p Hne H1 H2 Hp1 Hp2.
  destruct Hinv as [Hp Hd].
  assert (Hnd : NoDup (occupied cfg st)).
  { assert (Hall : NoDup (ports st ++ occupied cfg st))
      by (rewrite Hp; apply NoDup_initial_ports).
    by apply NoDup_app in Hall as (_ & _ & Hocc). }
  pose proof (occupied_distinct cfg st id1 id2 c1 c2 Hnd Hne H1 H2) as Hslots.
  assert (Hs1 : 0 <= slot_of cfg c1 < NumContainers cfg).
  { apply (partition_range cfg Hcfg st _ Hp).
    apply elem_of_app. right. by apply (occupied_elem cfg st id1). }
  assert (Hs2 : 0 <= slot_of cfg c2 < NumContainers cfg).
  { apply (partition_range cfg Hcfg st _ Hp).
    apply elem_of_app. right. by apply (occupied_elem cfg st id2). }
  rewrite (Hd _ _ H1) in Hp1. rewrite (Hd _ _ H2) in Hp2.
  apply (all_ports_band cfg Hcfg Hspan) in Hp1 as (j1 & Hj1 & E1); [|exact Hs1].
  apply (all_ports_band cfg Hcfg Hspan) in Hp2 as (j2 & Hj2 & E2); [|exact Hs2].
  assert (j1 = j2) by nia. subst j2. lia.
Qed.

Lemma port_span_cfg4 : port_span Sample.cfg4 <= 65535.
Proof. vm_compute. intros H. discriminate H. Qed.

Lemma active_ports_disjoint_witness :
  1004 ∉ all_ports (newContainer Sample.cfg4 "b" (Sample.manifest 2 128) 1).
Proof.
  destruct (proj2 (active_ports_disjoint Sample.cfg4 Config_ok_cfg4 port_span_cfg4)
              None None Sample3.requests_two4 Sample.two4 Sample3.log_two4
              (proj1 (active_ports_disjoint Sample.cfg4 Config_ok_cfg4 port_span_cfg4))
              run_two4) as [Hdisj _].
  apply (Hdisj "a" "b"
           (newContainer Sample.cfg4 "a" (Sample.manifest 1 64) 0)
           (newContainer Sample.cfg4 "b" (Sample.manifest 2 128) 1) 1004).
  - intros H. discriminate H.
  - reflexivity.
  - reflexivity.
  - vm_compute. apply list_elem_of_further, list_elem_of_here.
Defined.

(** C3.  A granted reservation that pops slot [s] below [NumContainers],
    under a configuration that passes the bound of [Init] (a manager runs
    under no other, see [Init_started_bound]), stores a
    container whose primary port is [MinPort + s], whose SSH port is
    [MinPort + NumContainers + s] and whose [NumSecondaryPorts] secondary
    ports are [MinPort + NumContainers * (i + 2) + s].  With ports from
    1000, four slots and two secondary ports, slot 0 gets 1000, 1004 and
    [1008; 1012], and slot 3 gets 1003, 1007 and [1011; 1015]. *)
Theorem reserve_ports :
  (forall cfg req st s rest st' c,
     Config_ok cfg ->
     port_span cfg <= 65535 ->
     ports st = s :: rest ->
     0 <= s < NumContainers cfg ->
     reserve cfg req st
       = Done tt st' [EvReserveResp {| container := Some c; err := None |}] ->
     containers st' !! r_id req = Some c /\
     PrimaryPort c = MinPort cfg + s /\
     SSHPort c = MinPort cfg + NumContainers cfg + s /\
     Z.of_nat (length (SecondaryPorts c)) = NumSecondaryPorts cfg /\
     (forall i : nat,
        Z.of_nat i < NumSecondaryPorts cfg ->
        SecondaryPorts c !! i
          = Some (MinPort cfg + NumContainers cfg * (Z.of_nat i + 2) + s))) /\
  (exists st' c,
     reserve Sample.cfg4 (Sample.req "a" 1 64) (set_ports (fun _ => [0; 1; 2; 3]) Sample.fresh4)
       = Done tt st' [EvReserveResp {| container := Some c; err := None |}] /\
     containers st' !! "a" = Some c /\
     PrimaryPort c = 1000 /\ SSHPort c = 1004 /\ SecondaryPorts c = [1008; 1012]) /\
  (exists st' c,
     reserve Sample.cfg4 (Sample.req "a" 1 64) (set_ports (fun _ => [3; 0; 1; 2]) Sample.fresh4)
       = Done tt st' [EvReserveResp {| container := Some c; err := None |}] /\
     containers st' !! "a" = Some c /\
     PrimaryPort c = 1003 /\ SSHPort c = 1007 /\ SecondaryPorts c = [1011; 1015]).
Proof.
  split; [|split].
  - intros cfg req st s rest st' c Hcfg Hspan Hports Hs Hrun.
    apply reserve_Done_granted in Hrun
      as (m & port & rest' & Hm & Hr & Hp & -> & ->).
    rewrite Hports in Hp. injection Hp as <- <-. simpl.
    split; [apply lookup_insert_eq|].
    split; [by apply primary_exact|].
    split; [by apply ssh_exact|].
    split.
    + unfold secondaryPorts. rewrite length_fmap, length_seq.
      destruct Hcfg as (_ & Hk & _). unfold is_u16 in Hk. lia.
    + intros i Hi. by apply secondaryPorts_lookup.
  - eexists _, _. split; [apply reserve_granted; reflexivity|].
    repeat split.
  - eexists _, _. split; [apply reserve_granted; reflexivity|].
    repeat split.
Qed.

Lemma reserve_ports_witness :
  containers Sample.two4 !! "b"
    = Some (newContainer Sample.cfg4 "b" (Sample.manifest 2 128) 1) /\
  PrimaryPort (newContainer Sample.cfg4 "b" (Sample.manifest 2 128) 1) = 1000 + 1 /\
  SSHPort (newContainer Sample.cfg4 "b" (Sample.manifest 2 128) 1) = 1000 + 4 + 1.
Proof.
  destruct (proj1 reserve_ports Sample.cfg4 (Sample.req "b" 2 128) Sample.one4
              1 [2; 3] Sample.two4
              (newContainer Sample.cfg4 "b" (Sample.manifest 2 128) 1))
    as (Hc & Hp & Hs & _).
  - exact Config_ok_cfg4.
  - vm_compute. intros H. discriminate H.
  - reflexivity.
  - vm_compute. split; [intros H; discriminate H | reflexivity].
  - apply reserve_granted; reflexivity.
  - split; [exact Hc|]. split; [exact Hp | exact Hs].
Defined.

(** * The free list as a queue *)

Lemma refusal_None_intro cfg id m st :
  ~ Z.of_nat (size (containers st)) >= NumContainers cfg ->
  containers st !! id = None ->
  ~ add64 (types.CPUShares m) (usedCPUShares st) > CPUShares cfg ->
  ~ add64 (types.MemoryLimit m) (usedMemoryLimit st) > MemoryLimit cfg ->
  refusal cfg id m st = None.
Proof.
  intros Hfull Hid Hcpu Hmem. unfold refusal.
  rewrite bool_decide_eq_false_2 by exact Hfull.
  rewrite bool_decide_eq_false_2 by (rewrite Hid; by intros [? ?]).
  destruct (add64 (types.CPUShares m) _ >? _) eqn:Hc.
  { apply Z.gtb_lt in Hc. lia. }
  destruct (add64 (types.MemoryLimit m) _ >? _) eqn:Hm; [|done].
  apply Z.gtb_lt in Hm. lia.
Qed.

(** C10.  A reservation that passes the four tests is granted the first
    slot of the free list and leaves the rest in order, and no granted
    reservation gets any other slot; a teardown of an active container
    appends [PrimaryPort - MinPort] at the end, and for a container stored
    by [reserve] that difference is the slot the reservation took.  So a
    slot given back is handed out again only after every slot that was
    already waiting, and the slot a reservation gets is fixed by the list. *)
Theorem free_list_fifo cfg st :
  Forall is_u16 (ports st) ->
  (forall req m s rest,
     r_manifest req = Some m ->
     ~ Z.of_nat (size (containers st)) >= NumContainers cfg ->
     containers st !! r_id req = None ->
     ~ add64 (types.CPUShares m) (usedCPUShares st) > CPUShares cfg ->
     ~ add64 (types.MemoryLimit m) (usedMemoryLimit st) > MemoryLimit cfg ->
     ports st = s :: rest ->
     exists st' c,
       reserve cfg req st
         = Done tt st' [EvReserveResp {| container := Some c; err := None |}] /\
       ports st' = rest /\
       containers st' !! r_id req = Some c /\
       PrimaryPort c = add16 (MinPort cfg) s /\
       sub16 (PrimaryPort c) (MinPort cfg) = s /\
       exists st'',
         teardown cfg {| t_id := r_id req |} st'
           = Done tt st'' [EvTeardownHook c; EvSave (containers st'') (ports st'');
                           EvTeardownResp true] /\
         ports st'' = rest ++ [s]) /\
  (forall req st' c,
     reserve cfg req st
       = Done tt st' [EvReserveResp {| container := Some c; err := None |}] ->
     exists s rest,
       ports st = s :: rest /\ ports st' = rest /\
       containers st' !! r_id req = Some c /\
       PrimaryPort c = add16 (MinPort cfg) s /\
       sub16 (PrimaryPort c) (MinPort cfg) = s /\
       forall log st'',
         teardown cfg {| t_id := r_id req |} st' = Done tt st'' log ->
         ports st'' = rest ++ [s]) /\
  (forall id c,
     containers st !! id = Some c ->
     exists st',
       teardown cfg {| t_id := id |} st
         = Done tt st' [EvTeardownHook c; EvSave (containers st') (ports st');
                        EvTeardownResp true] /\
       ports st' = ports st ++ [sub16 (PrimaryPort c) (MinPort cfg)]).
Proof.
  intros Htyped. split; [|split].
  - intros req m s rest Hm Hfull Hid Hcpu Hmem Hp.
    pose proof (refusal_None_intro cfg (r_id req) m st Hfull Hid Hcpu Hmem) as Hr.
    rewrite Hp in Htyped. apply Forall_cons in Htyped as [Hs _].
    exists (reserved cfg (r_id req) m st s rest),
           (newContainer cfg (r_id req) m s).
    split; [by apply reserve_granted|]. simpl.
    split; [done|]. split; [apply lookup_insert_eq|].
    split; [done|]. split; [by apply sub16_add16|].
    exists (torn_down cfg (r_id req) (newContainer cfg (r_id req) m s)
              (reserved cfg (r_id req) m st s rest)).
    split.
    + apply teardown_active. apply lookup_insert_eq.
    + simpl. unfold slot_of. simpl. by rewrite sub16_add16.
  - intros req st' c Hrun.
    apply reserve_Done_granted in Hrun
      as (m & s & rest & Hm & Hr & Hp & -> & ->).
    rewrite Hp in Htyped. apply Forall_cons in Htyped as [Hs _].
    exists s, rest. simpl.
    split; [done|]. split; [done|]. split; [apply lookup_insert_eq|].
    split; [done|]. split; [by apply sub16_add16|].
    intros log st'' Htd.
    rewrite (teardown_active cfg (r_id req)
               (newContainer cfg (r_id req) m s)) in Htd
      by apply lookup_insert_eq.
    injection Htd as <- _. simpl. unfold slot_of. simpl.
    by rewrite sub16_add16.
  - intros id c Hid. exists (torn_down cfg id c st).
    split; [by apply teardown_active | reflexivity].
Qed.

(** With "a" on slot 0 and the free list [1; 2; 3], the reservation of
    "b" is granted slot 1 and leaves [2; 3]; the teardown of "a" then
    puts slot 0 behind the slots that were waiting. *)
Lemma free_list_fifo_witness :
  (exists st' c,
     reserve Sample.cfg4 (Sample.req "b" 2 128) Sample.one4
       = Done tt st' [EvReserveResp {| container := Some c; err := None |}] /\
     ports st' = [2; 3] /\ PrimaryPort c = add16 1000 1 /\
     sub16 (PrimaryPort c) 1000 = 1) /\
  (exists st',
     teardown Sample.cfg4 {| t_id := "a" |} Sample.two4
       = Done tt st'
           [EvTeardownHook (newContainer Sample.cfg4 "a" (Sample.manifest 1 64) 0);
            EvSave (containers st') (ports st'); EvTeardownResp true] /\
     ports st' = [2; 3; 0]).
Proof.
  assert (Htyped : Forall is_u16 (ports Sample.one4)).
  { repeat constructor; vm_compute; intros H; discriminate H. }
  assert (Htyped2 : Forall is_u16 (ports Sample.two4)).
  { repeat constructor; vm_compute; intros H; discriminate H. }
  split.
  - destruct (proj1 (free_list_fifo Sample.cfg4 Sample.one4 Htyped)
                (Sample.req "b" 2 128) (Sample.manifest 2 128) 1 [2; 3])
      as (st' & c & Hrun & Hp & _ & Hprim & Hslot & _).
    + reflexivity.
    + vm_compute. intros H. apply H. reflexivity.
    + reflexivity.
    + vm_compute. intros H. discriminate H.
    + vm_compute. intros H. discriminate H.
    + reflexivity.
    + exists st', c. split; [exact Hrun|]. split; [exact Hp|].
      split; [exact Hprim | exact Hslot].
  - destruct (proj2 (proj2 (free_list_fifo Sample.cfg4 Sample.two4 Htyped2)) "a"
                (newContainer Sample.cfg4 "a" (Sample.manifest 1 64) 0))
      as (st' & Htd & Hp); [reflexivity|].
    exists st'. split; [exact Htd | exact Hp].
Defined.

(** * Startup *)

(** C8.  [containerManager] starts from an empty map when no container
    snapshot was decoded and from the decoded map otherwise; from the
    slots [0 .. NumContainers - 1], in that order, when no free-list
    snapshot was decoded and from the decoded list otherwise; and in every
    case with counters summed over the map it starts from, in [uint]
    arithmetic: the sum itself whenever it fits. *)
Theorem startup_spec cfg lc lp :
  containers (startup cfg None lp) = ∅ /\
  (forall cs, containers (startup cfg (Some cs) lp) = cs) /\
  length (ports (startup cfg lc None)) = Z.to_nat (NumContainers cfg) /\
  (forall i : nat,
     Z.of_nat i < NumContainers cfg ->
     ports (startup cfg lc None) !! i = Some (Z.of_nat i)) /\
  (forall ps, ports (startup cfg lc (Some ps)) = ps) /\
  usedCPUShares (startup cfg lc lp)
    = wrap64 (total_cpu (containers (startup cfg lc lp))) /\
  usedMemoryLimit (startup cfg lc lp)
    = wrap64 (total_memory (containers (startup cfg lc lp))) /\
  (manifests_ok (default ∅ lc) ->
   total_cpu (default ∅ lc) < mod64 ->
   total_memory (default ∅ lc) < mod64 ->
   usedCPUShares (startup cfg lc lp) = total_cpu (containers (startup cfg lc lp)) /\
   usedMemoryLimit (startup cfg lc lp) = total_memory (containers (startup cfg lc lp))).
Proof.
  repeat split; simpl.
  - apply length_initial_ports.
  - intros i Hi. by apply initial_ports_lookup.
  - apply startup_cpu_wrap.
  - apply startup_memory_wrap.
  - rewrite startup_cpu_wrap. apply wrap64_small.
    pose proof (total_cpu_nonneg _ H). unfold is_u64. lia.
  - rewrite startup_memory_wrap. apply wrap64_small.
    pose proof (total_memory_nonneg _ H). unfold is_u64. lia.
Qed.

Lemma startup_spec_witness :
  ports (startup Sample.cfg4 (Some Sample.snapshot) None) !! 3%nat = Some 3 /\
  usedCPUShares (startup Sample.cfg4 (Some Sample.snapshot) (Some [1; 2; 3])) = 10 /\
  usedMemoryLimit (startup Sample.cfg4 (Some Sample.snapshot) (Some [1; 2; 3])) = 64.
Proof.
  destruct (startup_spec Sample.cfg4 (Some Sample.snapshot) (Some [1; 2; 3]))
    as (_ & _ & _ & _ & _ & _ & _ & Hsum).
  destruct (startup_spec Sample.cfg4 (Some Sample.snapshot) None)
    as (_ & _ & _ & Hports & _).
  split.
  - apply (Hports 3%nat). reflexivity.
  - destruct Hsum as [Hc Hm].
    + intros id c Hid. simpl in Hid. unfold Sample.snapshot in Hid.
      apply lookup_singleton_Some in Hid as [_ <-].
      vm_compute. repeat split; intros H; discriminate H.
    + reflexivity.
    + reflexivity.
    + rewrite Hc, Hm. split; reflexivity.
Defined.

(** * Counters *)

(** C2 as stated fails at two inputs.  Started on a snapshot whose one
    container holds 10 CPU shares, under a configuration that offers 5,
    the manager serves a teardown of an unknown id and is left with
    [usedCPUShares = 10 > 5 = CPUShares].  Started with nothing on disk
    and 10 CPU shares to give, it grants 1 share to "a" and then
    [2^64 - 1] shares to "b", because the sum tested against [CPUShares]
    wraps to 0; the counter is then 0 and the active containers hold
    [2^64] shares. *)
Lemma counters_counterexample :
  (let st0 := startup Sample.cfg_low (Some Sample.snapshot) (Some [1; 2; 3]) in
   containerManager Sample.cfg_low (Some Sample.snapshot) (Some [1; 2; 3])
     [ReqTeardown {| t_id := "zz" |}]
     = Done tt st0 [EvTeardownResp false] /\
   usedCPUShares st0 = 10 /\ CPUShares Sample.cfg_low = 5 /\
   ~ usedCPUShares st0 <= CPUShares Sample.cfg_low) /\
  (exists st' log,
     containerManager Sample.cfg4 None None
       [ReqReserve (Sample.req "a" 1 64); ReqReserve (Sample.req "b" Sample.max_uint 0)]
       = Done tt st' log /\
     usedCPUShares st' = 0 /\
     total_cpu (containers st') = 18446744073709551616 /\
     usedCPUShares st' <> total_cpu (containers st') /\
     ~ total_cpu (containers st') <= CPUShares Sample.cfg4).
Proof.
  split.
  - repeat split. vm_compute. intros H. apply H. reflexivity.
  - eexists _, _. split; [vm_compute; reflexivity|].
    assert (Htot : total_cpu (containers (reserved Sample.cfg4 "b"
                     (Sample.manifest Sample.max_uint 0) Sample.one4 1 [2; 3]))
                   = 18446744073709551616).
    { simpl. rewrite total_cpu_insert by reflexivity.
      unfold Sample.one4. simpl. rewrite total_cpu_insert by reflexivity.
      rewrite total_cpu_empty. reflexivity. }
    change (total_cpu _) with
      (total_cpu (containers (reserved Sample.cfg4 "b"
                    (Sample.manifest Sample.max_uint 0) Sample.one4 1 [2; 3]))).
    rewrite Htot. repeat split; try (intros H; discriminate H).
    vm_compute. intros H. apply H. reflexivity.
Qed.

Lemma serve_all_app cfg rs1 rs2 st st' log :
  serve_all cfg (rs1 ++ rs2) st = Done tt st' log ->
  exists st1 l1 l2,
    serve_all cfg rs1 st = Done tt st1 l1 /\
    serve_all cfg rs2 st1 = Done tt st' l2 /\ log = l1 ++ l2.
Proof.
  revert st log. induction rs1 as [|r rs1 IH]; intros st log Hrun.
  - exists st, [], log. done.
  - change ((r :: rs1) ++ rs2) with (r :: (rs1 ++ rs2)) in Hrun.
    apply serve_all_cons in Hrun as (sa & la & lb & Hr & Hrest & ->).
    apply IH in Hrest as (st1 & l1 & l2 & H1 & H2 & ->).
    exists st1, (la ++ l1), l2. split; [|split; [exact H2 | by rewrite app_assoc]].
    simpl. unfold mbind, M_bind, bind. by rewrite Hr, H1.
Qed.

(** C2, amended.  Start the manager on a snapshot whose containers'
    manifests sum to at most [CPUShares] and [MemoryLimit], and let it
    serve a sequence of reservations and teardowns in which every
    reservation asks for amounts that stay in the range of [uint] when
    added to the configured totals.  After each operation of the sequence
    (that is, after every initial part [rs1] of it) [usedCPUShares] is the
    sum of the CPU shares of the active containers and at most
    [CPUShares], and [usedMemoryLimit] is the sum of their memory limits
    and at most [MemoryLimit]. *)
Theorem counters_invariant cfg lc lp rs st' log :
  Config_ok cfg ->
  manifests_ok (default ∅ lc) ->
  total_cpu (default ∅ lc) <= CPUShares cfg ->
  total_memory (default ∅ lc) <= MemoryLimit cfg ->
  Forall (fits cfg) rs ->
  containerManager cfg lc lp rs = Done tt st' log ->
  forall rs1 rs2,
    rs = rs1 ++ rs2 ->
    exists st1 log1,
      containerManager cfg lc lp rs1 = Done tt st1 log1 /\
      usedCPUShares st1 = total_cpu (containers st1) /\
      usedCPUShares st1 <= CPUShares cfg /\
      usedMemoryLimit st1 = total_memory (containers st1) /\
      usedMemoryLimit st1 <= MemoryLimit cfg.
Proof.
  intros Hcfg Hok Hc Hm Hfit Hrun rs1 rs2 ->.
  pose proof (counters_inv_startup cfg Hcfg lc lp Hok Hc Hm) as Hinv.
  apply serve_all_app in Hrun as (st1 & l1 & l2 & H1 & _ & _).
  apply Forall_app in Hfit as [Hfit1 _].
  destruct (counters_inv_serve_all cfg Hcfg rs1 _ _ _ Hinv Hfit1 H1)
    as [_ Hcpu Hcl Hmem Hml].
  exists st1, l1. split; [exact H1|]. rewrite Hcpu, Hmem. done.
Qed.

Lemma counters_invariant_witness :
  exists st1 log1,
    containerManager Sample.cfg4 None None
      [ReqReserve (Sample.req "a" 1 64); ReqReserve (Sample.req "b" 2 128)]
      = Done tt st1 log1 /\
    usedCPUShares st1 = total_cpu (containers st1) /\
    usedCPUShares st1 <= 10.
Proof.
  destruct (counters_invariant Sample.cfg4 None None
              [ReqReserve (Sample.req "a" 1 64); ReqReserve (Sample.req "b" 2 128);
               ReqTeardown {| t_id := "a" |}]
              (torn_down Sample.cfg4 "a"
                 (newContainer Sample.cfg4 "a" (Sample.manifest 1 64) 0) Sample.two4)
              [EvReserveResp
                 {| container := Some (newContainer Sample.cfg4 "a" (Sample.manifest 1 64) 0);
                    err := None |};
               EvReserveResp
                 {| container := Some (newContainer Sample.cfg4 "b" (Sample.manifest 2 128) 1);
                    err := None |};
               EvTeardownHook (newContainer Sample.cfg4 "a" (Sample.manifest 1 64) 0);
               EvSave {[ "b" := newContainer Sample.cfg4 "b" (Sample.manifest 2 128) 1 ]}
                 [2; 3; 0];
               EvTeardownResp true])
    with (rs1 := [ReqReserve (Sample.req "a" 1 64); ReqReserve (Sample.req "b" 2 128)])
         (rs2 := [ReqTeardown {| t_id := "a" |}])
    as (st1 & log1 & Hrun & Hc & Hcl & _).
  - exact Config_ok_cfg4.
  - apply map_Forall_empty.
  - vm_compute. intros H. discriminate H.
  - vm_compute. intros H. discriminate H.
  - repeat constructor; vm_compute; intros H; discriminate H.
  - vm_compute. reflexivity.
  - reflexivity.
  - exists st1, log1. split; [exact Hrun|]. split; [exact Hc | exact Hcl].
Defined.

(** * Validation in [Init] *)

Example Error_cpu_text :
  Error (ErrCPU 5 4) = "Not enough CPU Shares to reserve. (5 requested, 4 available)".
Proof. vm_compute. reflexivity. Qed.

(** The [uint64] computation of [Init] is the exact one, except when
    [MinPort] and [NumContainers] are both 0 and the subtraction of 1
    wraps. *)
Lemma port_span64_exact cfg :
  is_u16 (NumContainers cfg) -> is_u16 (NumSecondaryPorts cfg) ->
  is_u16 (MinPort cfg) ->
  0 < MinPort cfg + NumContainers cfg ->
  port_span64 cfg = port_span cfg.
Proof.
  unfold is_u16, mod16, port_span64, port_span. intros Hn Hk Hm Hpos.
  unfold add64, mul64, sub64.
  rewrite (wrap64_small (NumSecondaryPorts cfg + 2)) by (unfold is_u64, mod64; lia).
  rewrite (wrap64_small (_ * _)) by (unfold is_u64, mod64; nia).
  rewrite (wrap64_small (MinPort cfg + _)) by (unfold is_u64, mod64; nia).
  apply wrap64_small. unfold is_u64, mod64. nia.
Qed.

(** A manager only ever runs under a configuration inside the bound: if
    [Init] started it and there is at least one slot, the exact port span
    is at most 65535. *)
Lemma Init_started_bound registry saveDir nc nsp mp cpu mem mk :
  is_u16 nc -> is_u16 nsp -> is_u16 mp -> 0 < nc ->
  init_started (Init registry saveDir nc nsp mp cpu mem mk) = true ->
  port_span (init_config (Init registry saveDir nc nsp mp cpu mem mk)) <= 65535.
Proof.
  intros Hn Hk Hm Hpos. unfold Init.
  destruct (_ >? _) eqn:Hgt; [done|]. intros _.
  rewrite port_span64_exact in Hgt; simpl; try done.
  - rewrite Z.gtb_ltb in Hgt. apply Z.ltb_ge in Hgt.
    by destruct mk.
  - unfold is_u16 in Hm. lia.
Qed.

(** C9 as stated fails: with a configuration inside the bound [Init]
    still returns an error when the save directory cannot be created,
    and with [MinPort = 0] and [NumContainers = 0], where the exact value
    of the left-hand side is -1, it returns the configuration error. *)
Lemma Init_error_counterexample :
  (let r := Init "registry.local" "/var/atlantis/save" 4 2 1000 10 1024
              (Some (ErrOS "mkdir /var/atlantis: permission denied")) in
   init_err r = Some (ErrOS "mkdir /var/atlantis: permission denied") /\
   init_started r = false /\
   port_span (init_config r) = 1015 /\ ~ port_span (init_config r) > 65535) /\
  (let r := Init "registry.local" "/var/atlantis/save" 0 2 0 10 1024 None in
   init_err r = Some ErrInvalidConfig /\
   port_span (init_config r) = -1 /\ ~ port_span (init_config r) > 65535).
Proof.
  split; simpl; repeat split; vm_compute; intros H; discriminate H.
Qed.

(** C9, amended.  For [uint16] arguments, [Init] returns the
    configuration error and does not start the manager whenever
    [MinPort + (NumSecondaryPorts + 2) * NumContainers - 1 > 65535]; when
    the bound holds and [MinPort] and [NumContainers] are not both 0 it
    returns exactly what creating the save directory returned and starts
    the manager if and only if that is no error.  The comparison is made
    in 64 bits and agrees with the exact one on all those arguments.
    [reserve] never answers the configuration error, and grants every
    request that passes its four tests whatever the port span is. *)
Theorem Init_validation registry saveDir nc nsp mp cpu mem mk :
  is_u16 nc -> is_u16 nsp -> is_u16 mp ->
  let r := Init registry saveDir nc nsp mp cpu mem mk in
  let cfg := init_config r in
  (NumContainers cfg = nc /\ NumSecondaryPorts cfg = nsp /\ MinPort cfg = mp) /\
  (port_span cfg > 65535 ->
     port_span64 cfg = port_span cfg /\
     init_err r = Some ErrInvalidConfig /\ init_started r = false) /\
  (port_span cfg <= 65535 -> 0 < mp + nc ->
     port_span64 cfg = port_span cfg /\
     init_err r = mk /\
     init_started r = match mk with None => true | Some _ => false end) /\
  (forall req st st' log resp,
     reserve cfg req st = Done tt st' log ->
     EvReserveResp resp ∈ log -> err resp <> Some ErrInvalidConfig) /\
  (forall req m st port rest,
     r_manifest req = Some m ->
     refusal cfg (r_id req) m st = None -> ports st = port :: rest ->
     reserve cfg req st
       = Done tt (reserved cfg (r_id req) m st port rest)
           [EvReserveResp
              {| container := Some (newContainer cfg (r_id req) m port);
                 err := None |}]).
Proof.
  intros Hn Hk Hm r cfg.
  assert (Hcfg : cfg = {| RegistryHost := registry; SaveDir := saveDir;
                          NumContainers := nc; NumSecondaryPorts := nsp;
                          MinPort := mp; CPUShares := cpu; MemoryLimit := mem |}).
  { subst cfg r. unfold Init. destruct (_ >? _); [done|]. by destruct mk. }
  split; [by rewrite Hcfg|].
  split; [|split; [|split]].
  - intros Hbig.
    assert (Hex : port_span64 cfg = port_span cfg).
    { apply port_span64_exact; rewrite Hcfg; simpl; try done.
      rewrite Hcfg in Hbig. unfold port_span in Hbig. simpl in Hbig.
      unfold is_u16, mod16 in *. nia. }
    split; [exact Hex|].
    subst r. unfold Init. rewrite <- Hcfg, Hex.
    destruct (port_span cfg >? 65535) eqn:Hgt; [done|].
    rewrite Z.gtb_ltb in Hgt. apply Z.ltb_ge in Hgt. lia.
  - intros Hsmall Hpos.
    assert (Hex : port_span64 cfg = port_span cfg).
    { apply port_span64_exact; rewrite Hcfg; simpl; try done; lia. }
    split; [exact Hex|].
    subst r. unfold Init. rewrite <- Hcfg, Hex.
    destruct (port_span cfg >? 65535) eqn:Hgt.
    + apply Z.gtb_lt in Hgt. lia.
    + by destruct mk.
  - intros req st st' log resp Hrun Hin Herr.
    apply reserve_Done in Hrun
      as [(e & _ & -> & He) | (m & port & rest & _ & _ & _ & _ & ->)];
      apply list_elem_of_singleton in Hin; injection Hin as ->; simpl in Herr;
      [|discriminate Herr].
    injection Herr as ->.
    destruct He as [He | (m & _ & He)].
    + unfold early_refusal in He. repeat case_bool_decide; discriminate He.
    + unfold refusal in He. split_checks He.
  - intros req m st port rest. apply reserve_granted.
Qed.

Lemma Init_validation_witness :
  init_err (Init "registry.local" "/var/atlantis/save" 65535 65535 65535 10 1024 None)
    = Some ErrInvalidConfig /\
  init_err (Init "registry.local" "/var/atlantis/save" 4 2 1000 10 1024 None) = None /\
  init_started (Init "registry.local" "/var/atlantis/save" 4 2 1000 10 1024 None) = true.
Proof.
  assert (Hu : forall z, (0 <=? z) && (z <? 65536) = true -> is_u16 z).
  { intros z Hz. apply andb_true_iff in Hz as [H1 H2].
    apply Z.leb_le in H1. apply Z.ltb_lt in H2. unfold is_u16, mod16. lia. }
  pose proof (Hu 65535 eq_refl) as Hmax. pose proof (Hu 4 eq_refl) as H4.
  pose proof (Hu 2 eq_refl) as H2. pose proof (Hu 1000 eq_refl) as H1000.
  split.
  - apply (proj1 (proj2 (Init_validation "registry.local" "/var/atlantis/save"
                           65535 65535 65535 10 1024 None Hmax Hmax Hmax))).
    vm_compute. reflexivity.
  - destruct (proj1 (proj2 (proj2 (Init_validation "registry.local" "/var/atlantis/save"
                           4 2 1000 10 1024 None H4 H2 H1000))))
      as (_ & He & Hs).
    + vm_compute. intros H. discriminate H.
    + reflexivity.
    + split; [exact He | exact Hs].
Defined.

(** * Further properties of the registry *)

Lemma sub64_wrap_l a b : sub64 (wrap64 a) b = wrap64 (a - b).
Proof. unfold sub64, wrap64. apply Zminus_mod_idemp_l. Qed.

Lemma sub64_add64 u m : is_u64 u -> sub64 (add64 u m) m = u.
Proof.
  intros Hu. unfold add64. rewrite sub64_wrap_l.
  replace (u + m - m) with u by lia. by apply wrap64_small.
Qed.

Lemma counters_mod_startup cfg lc lp : counters_mod (startup cfg lc lp).
Proof. split; simpl; [apply startup_cpu_wrap | apply startup_memory_wrap]. Qed.

Lemma counters_mod_serve cfg r st st' log :
  counters_mod st -> serve cfg r st = Done tt st' log -> counters_mod st'.
Proof.
  intros [Hc Hm] Hrun. destruct r as [req | [id]]; simpl in Hrun.
  - apply reserve_Done in Hrun
      as [(e & -> & _) | (m & port & rest & Hman & Hr & Hp & -> & _)]; [done|].
    pose proof (refusal_None_fresh_id cfg _ m st Hr) as Hid.
    split; simpl.
    + rewrite total_cpu_insert by exact Hid. simpl.
      rewrite Hc. apply add64_wrap_l.
    + rewrite total_memory_insert by exact Hid. simpl.
      rewrite Hm. apply add64_wrap_l.
  - destruct (containers st !! id) as [c|] eqn:Hid.
    + rewrite (teardown_active _ _ _ _ Hid) in Hrun. simplify_eq.
      split; simpl.
      * rewrite Hc, sub64_wrap_l. f_equal.
        rewrite (total_cpu_delete _ _ _ Hid). lia.
      * rewrite Hm, sub64_wrap_l. f_equal.
        rewrite (total_memory_delete _ _ _ Hid). lia.
    + rewrite (teardown_absent _ _ _ Hid) in Hrun. by simplify_eq.
Qed.

Lemma counters_mod_serve_all cfg rs st st' log :
  counters_mod st -> serve_all cfg rs st = Done tt st' log -> counters_mod st'.
Proof.
  revert st log. induction rs as [|r rs IH]; intros st log Hinv Hrun.
  - simpl in Hrun. unfold mret, M_ret, ret in Hrun. by simplify_eq.
  - apply serve_all_cons in Hrun as (st1 & l1 & l2 & H1 & H2 & _).
    eapply IH; [|exact H2]. by eapply counters_mod_serve.
Qed.

(** X1.  Whatever snapshot the manager starts on and whatever requests it
    serves, each counter is the sum over the active containers reduced
    modulo [2^64]: additions and subtractions that wrap never make the
    counters drift from the map. *)
Theorem counters_follow_map cfg lc lp rs st log :
  containerManager cfg lc lp rs = Done tt st log ->
  usedCPUShares st = wrap64 (total_cpu (containers st)) /\
  usedMemoryLimit st = wrap64 (total_memory (containers st)).
Proof.
  intros Hrun.
  exact (counters_mod_serve_all cfg rs _ _ _ (counters_mod_startup cfg lc lp) Hrun).
Qed.

Lemma counters_follow_map_witness :
  usedCPUShares (reserved Sample.cfg4 "b" (Sample.manifest Sample.max_uint 0) Sample.one4 1 [2; 3])
    = wrap64 (total_cpu (containers
        (reserved Sample.cfg4 "b" (Sample.manifest Sample.max_uint 0) Sample.one4 1 [2; 3]))).
Proof.
  apply (counters_follow_map Sample.cfg4 None None
           [ReqReserve (Sample.req "a" 1 64);
            ReqReserve (Sample.req "b" Sample.max_uint 0)]
           (reserved Sample.cfg4 "b" (Sample.manifest Sample.max_uint 0) Sample.one4 1 [2; 3])
           [EvReserveResp
              {| container := Some (newContainer Sample.cfg4 "a" (Sample.manifest 1 64) 0);
                 err := None |};
            EvReserveResp
              {| container :=
                   Some (newContainer Sample.cfg4 "b" (Sample.manifest Sample.max_uint 0) 1);
                 err := None |}]).
  vm_compute. reflexivity.
Defined.

Lemma startup_fixpoint cfg st :
  counters_mod st ->
  startup cfg (Some (containers st)) (Some (ports st)) = st.
Proof.
  intros [Hc Hm]. destruct st as [cs ps um uc]. simpl in *.
  unfold startup. simpl. rewrite startup_cpu_wrap, startup_memory_wrap.
  by rewrite <- Hc, <- Hm.
Qed.

(** X2.  Restarting the manager on the container map and the free list
    of a state it reached gives that state back, counters included: the
    counters need not be stored. *)
Theorem restart_restores_state cfg lc lp rs st log :
  containerManager cfg lc lp rs = Done tt st log ->
  startup cfg (Some (containers st)) (Some (ports st)) = st.
Proof.
  intros Hrun. apply startup_fixpoint.
  exact (counters_mod_serve_all cfg rs _ _ _ (counters_mod_startup cfg lc lp) Hrun).
Qed.

Lemma restart_restores_state_witness :
  startup Sample.cfg4 (Some (containers Sample.two4)) (Some (ports Sample.two4))
    = Sample.two4.
Proof.
  apply (restart_restores_state Sample.cfg4 None None
           [ReqReserve (Sample.req "a" 1 64); ReqReserve (Sample.req "b" 2 128)]
           Sample.two4
           [EvReserveResp
              {| container := Some (newContainer Sample.cfg4 "a" (Sample.manifest 1 64) 0);
                 err := None |};
            EvReserveResp
              {| container := Some (newContainer Sample.cfg4 "b" (Sample.manifest 2 128) 1);
                 err := None |}]).
  vm_compute. reflexivity.
Defined.

(** X3.  What a teardown saves is the state it leaves: for a manager
    started on any snapshot, after any requests, a teardown of an active
    id writes one snapshot, and a restart on that snapshot resumes in
    exactly the state the teardown produced. *)
Theorem teardown_snapshot_resumes cfg lc lp rs st log id c st' log' :
  containerManager cfg lc lp rs = Done tt st log ->
  containers st !! id = Some c ->
  teardown cfg {| t_id := id |} st = Done tt st' log' ->
  exists cs ps,
    filter (fun e => is_save e = true) log' = [EvSave cs ps] /\
    startup cfg (Some cs) (Some ps) = st'.
Proof.
  intros Hrun Hid Htd.
  pose proof (counters_mod_serve_all cfg rs _ _ _
                (counters_mod_startup cfg lc lp) Hrun) as Hmod.
  assert (Hmod' : counters_mod st').
  { apply (counters_mod_serve cfg (ReqTeardown {| t_id := id |}) st st' log' Hmod Htd). }
  rewrite (teardown_active _ _ _ _ Hid) in Htd. injection Htd as <- <-.
  exists (delete id (containers st)), (ports st ++ [slot_of cfg c]).
  split; [reflexivity|].
  exact (startup_fixpoint cfg _ Hmod').
Qed.

Lemma teardown_snapshot_resumes_witness :
  exists cs ps,
    startup Sample.cfg4 (Some cs) (Some ps)
      = torn_down Sample.cfg4 "a"
          (newContainer Sample.cfg4 "a" (Sample.manifest 1 64) 0) Sample.two4.
Proof.
  destruct (teardown_snapshot_resumes Sample.cfg4 None None
              [ReqReserve (Sample.req "a" 1 64); ReqReserve (Sample.req "b" 2 128)]
              Sample.two4
              [EvReserveResp
                 {| container := Some (newContainer Sample.cfg4 "a" (Sample.manifest 1 64) 0);
                    err := None |};
               EvReserveResp
                 {| container := Some (newContainer Sample.cfg4 "b" (Sample.manifest 2 128) 1);
                    err := None |}]
              "a" (newContainer Sample.cfg4 "a" (Sample.manifest 1 64) 0)
              (torn_down Sample.cfg4 "a"
                 (newContainer Sample.cfg4 "a" (Sample.manifest 1 64) 0) Sample.two4)
              [EvTeardownHook (newContainer Sample.cfg4 "a" (Sample.manifest 1 64) 0);
               EvSave {[ "b" := newContainer Sample.cfg4 "b" (Sample.manifest 2 128) 1 ]}
                 [2; 3; 0];
               EvTeardownResp true])
    as (cs & ps & _ & Hres).
  - vm_compute. reflexivity.
  - reflexivity.
  - vm_compute. reflexivity.
  - exists cs, ps. exact Hres.
Defined.

(** X4.  A granted reservation followed by the teardown of the same id
    undoes it: the container map and both counters are those from before
    the reservation, even if an addition wrapped in between, and the free
    list holds the same slots, the one that was used now last. *)
Theorem reserve_then_teardown cfg req st st1 c :
  is_u64 (usedCPUShares st) ->
  is_u64 (usedMemoryLimit st) ->
  Forall is_u16 (ports st) ->
  reserve cfg req st
    = Done tt st1 [EvReserveResp {| container := Some c; err := None |}] ->
  exists st2 s rest,
    teardown cfg {| t_id := r_id req |} st1
      = Done tt st2 [EvTeardownHook c; EvSave (containers st2) (ports st2);
                     EvTeardownResp true] /\
    containers st2 = containers st /\
    usedCPUShares st2 = usedCPUShares st /\
    usedMemoryLimit st2 = usedMemoryLimit st /\
    ports st = s :: rest /\ ports st2 = rest ++ [s].
Proof.
  intros Hu Hm Htyped Hrun.
  apply reserve_Done_granted in Hrun
    as (m & s & rest & Hman & Hr & Hp & -> & ->).
  pose proof (refusal_None_fresh_id cfg _ m st Hr) as Hid.
  rewrite Hp in Htyped. apply Forall_cons in Htyped as [Hs _].
  set (c := newContainer cfg (r_id req) m s).
  exists (torn_down cfg (r_id req) c (reserved cfg (r_id req) m st s rest)), s, rest.
  split.
  { apply teardown_active. apply lookup_insert_eq. }
  simpl. split; [|split; [|split; [|split]]].
  - by rewrite delete_insert_id.
  - by apply sub64_add64.
  - by apply sub64_add64.
  - exact Hp.
  - unfold slot_of. simpl. by rewrite sub16_add16.
Qed.

Lemma reserve_then_teardown_witness :
  exists st2,
    teardown Sample.cfg4 {| t_id := "b" |} Sample.two4
      = Done tt st2
          [EvTeardownHook (newContainer Sample.cfg4 "b" (Sample.manifest 2 128) 1);
           EvSave (containers st2) (ports st2); EvTeardownResp true] /\
    containers st2 = containers Sample.one4 /\
    usedCPUShares st2 = 1 /\ ports st2 = [2; 3; 1].
Proof.
  destruct (reserve_then_teardown Sample.cfg4 (Sample.req "b" 2 128) Sample.one4
              Sample.two4 (newContainer Sample.cfg4 "b" (Sample.manifest 2 128) 1))
    as (st2 & s & rest & Htd & Hc & Hu & _ & Hp & Hp').
  - vm_compute. split; [intros H; discriminate H | reflexivity].
  - vm_compute. split; [intros H; discriminate H | reflexivity].
  - repeat constructor; vm_compute; intros H; discriminate H.
  - apply reserve_granted; reflexivity.
  - exists st2. split; [exact Htd|]. split; [exact Hc|]. split; [exact Hu|].
    rewrite Hp'. injection Hp as <- <-. reflexivity.
Defined.

(** X5.  An id that was just reserved cannot be reserved again, whatever
    the second manifest (a [nil] one included): the second request is
    refused, for lack of slots if the first one took the last slot and
    because the id is in use otherwise, and the state stays as the first
    reservation left it. *)
Theorem reserve_twice_refused cfg req st st1 c manifest' :
  reserve cfg req st
    = Done tt st1 [EvReserveResp {| container := Some c; err := None |}] ->
  reserve cfg {| r_id := r_id req; r_manifest := manifest' |} st1
    = Done tt st1
        [EvReserveResp
           {| container := None;
              err := Some (if bool_decide (Z.of_nat (size (containers st1))
                                           >= NumContainers cfg)
                           then ErrNoFree else ErrIdInUse (r_id req)) |}].
Proof.
  intros Hrun.
  apply reserve_Done_granted in Hrun
    as (m & s & rest & Hman & Hr & Hp & -> & ->).
  apply reserve_early_refused. unfold early_refusal. simpl.
  case_bool_decide; [done|].
  rewrite bool_decide_eq_true_2; [done|].
  rewrite lookup_insert_eq. eauto.
Qed.

Lemma reserve_twice_refused_witness :
  reserve Sample.cfg4 (Sample.req "b" 1 1) Sample.two4
    = Done tt Sample.two4
        [EvReserveResp {| container := None; err := Some (ErrIdInUse "b") |}].
Proof.
  apply (reserve_twice_refused Sample.cfg4 (Sample.req "b" 2 128) Sample.one4
           Sample.two4 (newContainer Sample.cfg4 "b" (Sample.manifest 2 128) 1)
           (Some (Sample.manifest 1 1))).
  apply reserve_granted; reflexivity.
Defined.

Lemma run_full2 :
  containerManager Sample.cfg2 None None Sample3.requests_full2
    = Done tt Sample.full2 Sample3.log_full2.
Proof. vm_compute. reflexivity. Qed.

Lemma Config_ok_cfg2 : Config_ok Sample.cfg2.
Proof. vm_compute. repeat split; intros H; discriminate H. Qed.

(** X6.  For a manager started on a map and a free list in which the
    free list followed by the slots of the loaded containers is a
    rearrangement of [0 .. NumContainers - 1] (a start with nothing on
    disk is one), in every state it reaches a reservation is refused for
    lack of slots exactly when the free list is empty. *)
Theorem no_free_slot_iff_empty_list cfg lc lp rs st log req :
  Config_ok cfg ->
  ports (startup cfg lc lp) ++ occupied cfg (startup cfg lc lp)
    ≡ₚ initial_ports cfg ->
  containerManager cfg lc lp rs = Done tt st log ->
  reserve cfg req st
    = Done tt st [EvReserveResp {| container := None; err := Some ErrNoFree |}]
  <-> ports st = [].
Proof.
  intros Hcfg Hstart Hreach.
  pose proof (partition_serve_all cfg rs _ _ _ Hcfg Hstart Hreach) as Hinv.
  pose proof (partition_size cfg st Hinv) as Hsize.
  destruct Hcfg as (Hn & _). unfold is_u16 in Hn.
  split.
  - intros Hrun. destruct (ports st) as [|s rest] eqn:Hp; [done|].
    simpl in Hsize.
    assert (Hfree : ~ Z.of_nat (size (containers st)) >= NumContainers cfg) by lia.
    apply reserve_Done in Hrun
      as [(e & _ & Hlog & He) | (m & port & rest' & _ & _ & _ & _ & Hlog)];
      [|discriminate Hlog].
    injection Hlog as <-.
    destruct He as [He | (m & _ & He)].
    + unfold early_refusal in He.
      rewrite bool_decide_eq_false_2 in He by exact Hfree.
      case_bool_decide; discriminate He.
    + unfold refusal in He.
      rewrite bool_decide_eq_false_2 in He by exact Hfree.
      split_checks He.
  - intros Hp. apply reserve_early_refused. unfold early_refusal.
    rewrite bool_decide_eq_true_2; [done|].
    rewrite Hp in Hsize. simpl in Hsize. lia.
Qed.

Lemma no_free_slot_iff_empty_list_witness :
  reserve Sample.cfg2 (Sample.req "c" 1 1) Sample.full2
    = Done tt Sample.full2
        [EvReserveResp {| container := None; err := Some ErrNoFree |}].
Proof.
  apply (proj2 (no_free_slot_iff_empty_list Sample.cfg2 None None
                  Sample3.requests_full2 Sample.full2 Sample3.log_full2
                  (Sample.req "c" 1 1) Config_ok_cfg2
                  (partition_fresh Sample.cfg2) run_full2)).
  reflexivity.
Defined.

(** X7.  [reserve] panics in two situations only.  It panics on
    [ports[0]] exactly when the request carries a manifest, passes the
    four tests and the free list is empty.  It panics on reading the
    manifest exactly when the manifest pointer is [nil] and the request
    passes the first two tests, which do not read it.  For a manager
    started on a map and a free list that partition the slots, a request
    that carries a manifest is always answered. *)
Theorem reserve_panics_iff cfg req st :
  (reserve cfg req st = Panic "index out of range"
     <-> exists m, r_manifest req = Some m /\
                   refusal cfg (r_id req) m st = None /\ ports st = []) /\
  (reserve cfg req st = Panic "invalid memory address or nil pointer dereference"
     <-> r_manifest req = None /\ early_refusal cfg (r_id req) st = None) /\
  (forall msg,
     reserve cfg req st = Panic msg ->
     msg = "index out of range" \/
     msg = "invalid memory address or nil pointer dereference") /\
  (forall lc lp rs log,
     Config_ok cfg ->
     ports (startup cfg lc lp) ++ occupied cfg (startup cfg lc lp)
       ≡ₚ initial_ports cfg ->
     containerManager cfg lc lp rs = Done tt st log ->
     is_Some (r_manifest req) ->
     exists st' resp, reserve cfg req st = Done tt st' [EvReserveResp resp]).
Proof.
  assert (Hcases :
    forall msg, reserve cfg req st = Panic msg ->
      (msg = "index out of range" /\
       exists m, r_manifest req = Some m /\
                 refusal cfg (r_id req) m st = None /\ ports st = []) \/
      (msg = "invalid memory address or nil pointer dereference" /\
       r_manifest req = None /\ early_refusal cfg (r_id req) st = None)).
  { intros msg Hrun.
    destruct (early_refusal cfg (r_id req) st) as [e|] eqn:He.
    { by rewrite (reserve_early_refused _ _ _ _ He) in Hrun. }
    destruct (r_manifest req) as [m|] eqn:Hm.
    2: { rewrite (reserve_nil_panics _ _ _ Hm He) in Hrun.
         injection Hrun as <-. by right. }
    destruct (refusal cfg (r_id req) m st) as [e|] eqn:Hr.
    { by rewrite (reserve_refused _ _ _ _ _ Hm Hr) in Hrun. }
    destruct (ports st) as [|s rest] eqn:Hp.
    - rewrite (reserve_panics _ _ _ _ Hm Hr Hp) in Hrun.
      injection Hrun as <-. left. split; [done|]. by exists m.
    - by rewrite (reserve_granted _ _ _ _ _ _ Hm Hr Hp) in Hrun. }
  split; [|split; [|split]].
  - split.
    + intros Hrun. destruct (Hcases _ Hrun) as [[_ H] | [H _]]; [exact H|].
      discriminate H.
    + intros (m & Hm & Hr & Hp). by apply (reserve_panics _ _ m).
  - split.
    + intros Hrun. destruct (Hcases _ Hrun) as [[H _] | [_ H]]; [|exact H].
      discriminate H.
    + intros [Hm He]. by apply reserve_nil_panics.
  - intros msg Hrun. destruct (Hcases _ Hrun) as [[-> _] | [-> _]]; auto.
  - intros lc lp rs log Hcfg Hstart Hreach [m Hm].
    pose proof (partition_serve_all cfg rs _ _ _ Hcfg Hstart Hreach) as Hinv.
    destruct (refusal cfg (r_id req) m st) as [e|] eqn:Hr.
    + rewrite (reserve_refused _ _ _ _ _ Hm Hr). eauto.
    + destruct (partition_admitted cfg Hcfg _ m st Hinv Hr) as (port & rest & Hp).
      rewrite (reserve_granted _ _ _ _ _ _ Hm Hr Hp). eauto.
Qed.

(** A manager of four slots started on no container snapshot and an empty
    free-list snapshot panics on its first reservation; after a start on
    nothing, a request without manifest for a new id panics as well, and a
    request with one is answered. *)
Lemma reserve_panics_iff_witness :
  reserve Sample.cfg4 (Sample.req "a" 1 64) (startup Sample.cfg4 None (Some []))
    = Panic "index out of range"
  /\ reserve Sample.cfg4 {| r_id := "c"; r_manifest := None |} Sample.two4
    = Panic "invalid memory address or nil pointer dereference"
  /\ exists st' resp,
       reserve Sample.cfg4 (Sample.req "c" 1 64) Sample.two4
         = Done tt st' [EvReserveResp resp].
Proof.
  split; [|split].
  - apply (proj2 (proj1 (reserve_panics_iff Sample.cfg4 (Sample.req "a" 1 64)
                           (startup Sample.cfg4 None (Some []))))).
    exists (Sample.manifest 1 64). repeat split.
  - apply (proj2 (proj1 (proj2 (reserve_panics_iff Sample.cfg4
                                  {| r_id := "c"; r_manifest := None |}
                                  Sample.two4)))).
    split; reflexivity.
  - apply (proj2 (proj2 (proj2 (reserve_panics_iff Sample.cfg4 (Sample.req "c" 1 64)
                                  Sample.two4)))
             None None Sample3.requests_two4 Sample3.log_two4).
    + exact Config_ok_cfg4.
    + apply partition_fresh.
    + exact run_two4.
    + by eexists.
Defined.

(** * The read-only handlers *)

(** X8.  [get] follows the reservations and teardowns: after a granted
    reservation it returns, for that id, the record the reservation
    answered; after a teardown it returns nothing for that id; every other
    id is answered as before.  For a manager started on a map in which
    every record is the one [reserve] builds for its id and slot, and on a
    free list that partitions the slots with it, the record returned for
    an id carries that id in every state reached. *)
Theorem get_follows_requests cfg st :
  (forall req st1 c,
     reserve cfg req st
       = Done tt st1 [EvReserveResp {| container := Some c; err := None |}] ->
     handlers.get {| g_id := r_id req |} st1 = Some c /\
     forall id, id <> r_id req ->
       handlers.get {| g_id := id |} st1 = handlers.get {| g_id := id |} st) /\
  (forall id st1 log,
     teardown cfg {| t_id := id |} st = Done tt st1 log ->
     handlers.get {| g_id := id |} st1 = None /\
     forall id', id' <> id ->
       handlers.get {| g_id := id' |} st1 = handlers.get {| g_id := id' |} st) /\
  (forall lc lp rs log,
     Config_ok cfg ->
     slots_inv cfg (startup cfg lc lp) ->
     containerManager cfg lc lp rs = Done tt st log ->
     forall id c, handlers.get {| g_id := id |} st = Some c -> Id c = id).
Proof.
  split; [|split].
  - intros req st1 c Hrun.
    apply reserve_Done_granted in Hrun
      as (m & s & rest & Hman & Hr & Hp & -> & ->).
    unfold handlers.get. simpl. split.
    + apply lookup_insert_eq.
    + intros id Hne. by rewrite lookup_insert_ne.
  - intros id st1 log Hrun. unfold handlers.get. simpl.
    destruct (containers st !! id) as [c|] eqn:Hid.
    + rewrite (teardown_active _ _ _ _ Hid) in Hrun. injection Hrun as <- _.
      simpl. split; [apply lookup_delete_eq|].
      intros id' Hne. by rewrite lookup_delete_ne.
    + rewrite (teardown_absent _ _ _ Hid) in Hrun. injection Hrun as <- _.
      done.
  - intros lc lp rs log Hcfg Hstart Hreach id c Hget.
    destruct (slots_inv_serve_all cfg rs _ _ _ Hcfg Hstart Hreach) as [_ Hd].
    rewrite (Hd id c Hget). reflexivity.
Qed.

Lemma get_follows_requests_witness :
  handlers.get {| g_id := "b" |} Sample.two4
    = Some (newContainer Sample.cfg4 "b" (Sample.manifest 2 128) 1)
  /\ handlers.get {| g_id := "a" |} Sample.two4
    = handlers.get {| g_id := "a" |} Sample.one4
  /\ Id (newContainer Sample.cfg4 "b" (Sample.manifest 2 128) 1) = "b".
Proof.
  destruct (proj1 (get_follows_requests Sample.cfg4 Sample.one4)
              (Sample.req "b" 2 128) Sample.two4
              (newContainer Sample.cfg4 "b" (Sample.manifest 2 128) 1))
    as [Hb Hother].
  - apply reserve_granted; reflexivity.
  - split; [exact Hb|]. split; [apply Hother; intros H; discriminate H|].
    apply (proj2 (proj2 (get_follows_requests Sample.cfg4 Sample.two4))
             None None Sample3.requests_two4 Sample3.log_two4
             Config_ok_cfg4 (slots_inv_fresh Sample.cfg4) run_two4 "b").
    reflexivity.
Defined.

Lemma all_ports_lookup cfg id m s (i : nat) p :
  Config_ok cfg -> port_span cfg <= 65535 ->
  0 <= s < NumContainers cfg ->
  all_ports (newContainer cfg id m s) !! i = Some p ->
  Z.of_nat i < NumSecondaryPorts cfg + 2 /\
  p = MinPort cfg + NumContainers cfg * Z.of_nat i + s.
Proof.
  intros Hcfg Hspan Hs Hi.
  pose proof Hcfg as (Hn & Hk & Hm & _). unfold is_u16 in *.
  unfold all_ports in Hi. simpl in Hi.
  destruct i as [|[|k]]; simpl in Hi.
  - injection Hi as <-. rewrite primary_exact by done. lia.
  - injection Hi as <-. rewrite ssh_exact by done. lia.
  - assert (Hlt : (k < Z.to_nat (NumSecondaryPorts cfg))%nat).
    { apply lookup_lt_Some in Hi. unfold secondaryPorts in Hi.
      rewrite length_fmap, length_seq in Hi. exact Hi. }
    rewrite (secondaryPorts_lookup cfg Hcfg Hspan) in Hi by lia.
    injection Hi as <-. lia.
Qed.

(** X9.  Under the bound of [Init], for a manager started on a map in
    which every record is the one [reserve] builds for its id and slot
    under this configuration, and on a free list that partitions the slots
    with it (a start with nothing on disk is one), every active container
    of every state reached owns [NumSecondaryPorts + 2] different ports,
    all between [MinPort] and [MinPort + (NumSecondaryPorts + 2) *
    NumContainers - 1], hence valid 16-bit port numbers. *)
Theorem container_ports_distinct_in_range cfg lc lp rs st log id c :
  Config_ok cfg ->
  port_span cfg <= 65535 ->
  slots_inv cfg (startup cfg lc lp) ->
  containerManager cfg lc lp rs = Done tt st log ->
  containers st !! id = Some c ->
  NoDup (all_ports c) /\
  Z.of_nat (length (all_ports c)) = NumSecondaryPorts cfg + 2 /\
  (forall p, p ∈ all_ports c -> MinPort cfg <= p <= port_span cfg /\ is_u16 p).
Proof.
  intros Hcfg Hspan Hstart Hreach Hid.
  destruct (slots_inv_serve_all cfg rs _ _ _ Hcfg Hstart Hreach) as [Hpart Hd].
  assert (Hs : 0 <= slot_of cfg c < NumContainers cfg).
  { apply (partition_range cfg Hcfg st _ Hpart).
    apply elem_of_app. right. by apply (occupied_elem cfg st id). }
  rewrite (Hd _ _ Hid).
  pose proof Hcfg as (Hn & Hk & Hm & _). unfold is_u16, mod16 in *.
  split; [|split].
  - apply NoDup_alt. intros i j p Hi Hj.
    apply (all_ports_lookup cfg _ _ _ _ _ Hcfg Hspan Hs) in Hi as [_ ->].
    apply (all_ports_lookup cfg _ _ _ _ _ Hcfg Hspan Hs) in Hj as [_ Heq].
    nia.
  - unfold all_ports. simpl. unfold secondaryPorts.
    rewrite length_fmap, length_seq. lia.
  - intros p Hp.
    apply (all_ports_band cfg Hcfg Hspan) in Hp as (j & Hj & ->); [|exact Hs].
    unfold port_span in *. nia.
Qed.

Lemma container_ports_distinct_in_range_witness :
  NoDup (all_ports (newContainer Sample.cfg4 "b" (Sample.manifest 2 128) 1)).
Proof.
  apply (container_ports_distinct_in_range Sample.cfg4 None None
           Sample3.requests_two4 Sample.two4 Sample3.log_two4 "b"
           (newContainer Sample.cfg4 "b" (Sample.manifest 2 128) 1)).
  - exact Config_ok_cfg4.
  - exact port_span_cfg4.
  - apply slots_inv_fresh.
  - exact run_two4.
  - reflexivity.
Defined.

(** X10.  Under the bound of [Init], for a manager started as in X9, the
    ports [list] reports as available in any state reached are the
    primary ports [MinPort + s] of the free slots: pairwise different,
    inside [MinPort, MinPort + NumContainers), as many as there are free
    slots, and none of them is a primary, SSH or secondary port of an
    active container. *)
Theorem list_ports_are_free cfg lc lp rs st log :
  Config_ok cfg ->
  port_span cfg <= 65535 ->
  slots_inv cfg (startup cfg lc lp) ->
  containerManager cfg lc lp rs = Done tt st log ->
  let available := l_ports (handlers.list cfg st) in
  NoDup available /\
  Z.of_nat (length available)
    = NumContainers cfg - Z.of_nat (size (containers st)) /\
  (forall p, p ∈ available ->
     MinPort cfg <= p < MinPort cfg + NumContainers cfg) /\
  (forall p id c,
     p ∈ available -> containers st !! id = Some c -> p ∉ all_ports c).
Proof.
  intros Hcfg Hspan Hstart Hreach available. subst available. simpl.
  destruct (slots_inv_serve_all cfg rs _ _ _ Hcfg Hstart Hreach) as [Hpart Hd].
  pose proof (partition_size cfg st Hpart) as Hsize.
  assert (Hrange : forall s, s ∈ ports st -> 0 <= s < NumContainers cfg).
  { intros s Hs. apply (partition_range cfg Hcfg st _ Hpart). set_solver. }
  assert (Hnd : NoDup (ports st ++ occupied cfg st)).
  { rewrite Hpart. apply NoDup_initial_ports. }
  apply NoDup_app in Hnd as (Hndp & Hdisj & _).
  pose proof Hcfg as (Hn & _). unfold is_u16 in Hn.
  split; [|split; [|split]].
  - apply NoDup_fmap_2_strong; [|exact Hndp].
    intros x y Hx Hy. rewrite !(primary_exact cfg Hcfg Hspan) by auto. lia.
  - rewrite length_fmap. lia.
  - intros p Hp. apply list_elem_of_fmap in Hp as (s & -> & Hs).
    rewrite (primary_exact cfg Hcfg Hspan) by auto.
    specialize (Hrange s Hs). lia.
  - intros p id c Hp Hid Hin.
    apply list_elem_of_fmap in Hp as (s & -> & Hs).
    rewrite (primary_exact cfg Hcfg Hspan) in Hin by auto.
    assert (Ht : 0 <= slot_of cfg c < NumContainers cfg).
    { apply (partition_range cfg Hcfg st _ Hpart).
      apply elem_of_app. right. by apply (occupied_elem cfg st id). }
    rewrite (Hd _ _ Hid) in Hin.
    apply (all_ports_band cfg Hcfg Hspan) in Hin as (j & Hj & Heq); [|exact Ht].
    specialize (Hrange s Hs).
    assert (j = 0) by nia. subst j.
    assert (s = slot_of cfg c) by lia. subst s.
    apply (Hdisj _ Hs). by apply (occupied_elem cfg st id).
Qed.

Lemma list_ports_are_free_witness :
  NoDup (l_ports (handlers.list Sample.cfg4 Sample.two4)) /\
  l_ports (handlers.list Sample.cfg4 Sample.two4) = [1002; 1003].
Proof.
  destruct (list_ports_are_free Sample.cfg4 None None
              Sample3.requests_two4 Sample.two4 Sample3.log_two4) as (Hnd & _).
  - exact Config_ok_cfg4.
  - exact port_span_cfg4.
  - apply slots_inv_fresh.
  - exact run_two4.
  - split; [exact Hnd | reflexivity].
Defined.

(** X11.  The first port [list] reports is the primary port the next
    granted reservation assigns, and after that reservation [list] reports
    the remaining ports in the same order. *)
Theorem list_head_is_next_primary cfg req st st1 c :
  reserve cfg req st
    = Done tt st1 [EvReserveResp {| container := Some c; err := None |}] ->
  head (l_ports (handlers.list cfg st)) = Some (PrimaryPort c) /\
  l_ports (handlers.list cfg st1) = tail (l_ports (handlers.list cfg st)) /\
  l_containers (handlers.list cfg st1) !! r_id req = Some c.
Proof.
  intros Hrun.
  apply reserve_Done_granted in Hrun
    as (m & s & rest & Hman & Hr & Hp & -> & ->).
  simpl. rewrite Hp. simpl.
  split; [done|]. split; [done|]. apply lookup_insert_eq.
Qed.

Lemma list_head_is_next_primary_witness :
  head (l_ports (handlers.list Sample.cfg4 Sample.one4)) = Some 1001.
Proof.
  apply (list_head_is_next_primary Sample.cfg4 (Sample.req "b" 2 128) Sample.one4
           Sample.two4 (newContainer Sample.cfg4 "b" (Sample.manifest 2 128) 1)).
  apply reserve_granted; reflexivity.
Defined.

(** X12.  For a manager started on a map and a free list in which the
    free list followed by the slots of the loaded containers is a
    rearrangement of [0 .. NumContainers - 1] (a start with nothing on
    disk is one), in every state reached [nums] reports [NumContainers]
    slots in total, the number of active containers as used and the
    length of the free list as free; used and free add up to the total,
    and the subtraction does not wrap. *)
Theorem nums_containers cfg lc lp rs st log :
  Config_ok cfg ->
  ports (startup cfg lc lp) ++ occupied cfg (startup cfg lc lp)
    ≡ₚ initial_ports cfg ->
  containerManager cfg lc lp rs = Done tt st log ->
  let r := n_Containers (handlers.nums cfg st) in
  Total r = NumContainers cfg /\
  Used r = Z.of_nat (size (containers st)) /\
  Free r = Z.of_nat (length (ports st)) /\
  Used r + Free r = Total r.
Proof.
  intros Hcfg Hstart Hreach r. subst r. simpl.
  pose proof (partition_serve_all cfg rs _ _ _ Hcfg Hstart Hreach) as Hinv.
  pose proof (partition_size cfg st Hinv) as Hsize.
  destruct Hcfg as (Hn & _). unfold is_u16, mod16 in Hn.
  assert (Hfree : sub64 (NumContainers cfg) (Z.of_nat (size (containers st)))
                  = Z.of_nat (length (ports st))).
  { unfold sub64. rewrite wrap64_small; [lia|]. unfold is_u64, mod64. lia. }
  rewrite Hfree. repeat split; lia.
Qed.

Lemma nums_containers_witness :
  n_Containers (handlers.nums Sample.cfg4 Sample.two4)
    = {| Total := 4; Used := 2; Free := 2 |}.
Proof.
  destruct (nums_containers Sample.cfg4 None None Sample3.requests_two4
              Sample.two4 Sample3.log_two4 Config_ok_cfg4
              (partition_fresh Sample.cfg4) run_two4)
    as (Ht & Hu & Hf & _).
  destruct (n_Containers (handlers.nums Sample.cfg4 Sample.two4)) as [t u f].
  simpl in *. rewrite Ht, Hu, Hf. reflexivity.
Defined.

(** X13.  For a manager started on a snapshot within the configured
    totals and serving requests whose amounts fit, [nums] reports for CPU
    shares and for memory a free amount between 0 and the total, with
    used and free adding up to the total. *)
Theorem nums_resources cfg lc lp rs st log :
  Config_ok cfg ->
  manifests_ok (default ∅ lc) ->
  total_cpu (default ∅ lc) <= CPUShares cfg ->
  total_memory (default ∅ lc) <= MemoryLimit cfg ->
  Forall (fits cfg) rs ->
  containerManager cfg lc lp rs = Done tt st log ->
  let r := handlers.nums cfg st in
  Used (n_CPUShares r) + Free (n_CPUShares r) = Total (n_CPUShares r) /\
  0 <= Free (n_CPUShares r) <= CPUShares cfg /\
  Used (n_Memory r) + Free (n_Memory r) = Total (n_Memory r) /\
  0 <= Free (n_Memory r) <= MemoryLimit cfg.
Proof.
  intros Hcfg Hok Hc Hm Hfit Hrun r. subst r. simpl.
  pose proof (counters_inv_startup cfg Hcfg lc lp Hok Hc Hm) as Hinv.
  destruct (counters_inv_serve_all cfg Hcfg rs _ _ _ Hinv Hfit Hrun)
    as [Hok' Hcpu Hcl Hmem Hml].
  pose proof (total_cpu_nonneg _ Hok'). pose proof (total_memory_nonneg _ Hok').
  destruct Hcfg as (_ & _ & _ & Hcs & Hms). unfold is_u64 in *.
  unfold sub64.
  rewrite !wrap64_small by (unfold is_u64; lia). lia.
Qed.

Lemma nums_resources_witness :
  Free (n_CPUShares (handlers.nums Sample.cfg4 Sample.two4)) = 7 /\
  0 <= Free (n_Memory (handlers.nums Sample.cfg4 Sample.two4)) <= 1024.
Proof.
  destruct (nums_resources Sample.cfg4 None None
              [ReqReserve (Sample.req "a" 1 64); ReqReserve (Sample.req "b" 2 128)]
              Sample.two4
              [EvReserveResp
                 {| container := Some (newContainer Sample.cfg4 "a" (Sample.manifest 1 64) 0);
                    err := None |};
               EvReserveResp
                 {| container := Some (newContainer Sample.cfg4 "b" (Sample.manifest 2 128) 1);
                    err := None |}])
    as (_ & _ & _ & Hm).
  - exact Config_ok_cfg4.
  - apply map_Forall_empty.
  - vm_compute. intros H. discriminate H.
  - vm_compute. intros H. discriminate H.
  - repeat constructor; vm_compute; intros H; discriminate H.
  - vm_compute. reflexivity.
  - split; [reflexivity | exact Hm].
Defined.

(** X14.  [nums] subtracts in [uint] and does not clamp: when a counter
    exceeds its total, as after a start on a snapshot taken under larger
    totals, the free amount it reports is [2^64 - (used - total)]. *)
Theorem nums_free_wraps cfg st :
  is_u64 (CPUShares cfg) -> is_u64 (MemoryLimit cfg) ->
  is_u64 (usedCPUShares st) -> is_u64 (usedMemoryLimit st) ->
  (CPUShares cfg < usedCPUShares st ->
   Free (n_CPUShares (handlers.nums cfg st))
     = mod64 - (usedCPUShares st - CPUShares cfg)) /\
  (MemoryLimit cfg < usedMemoryLimit st ->
   Free (n_Memory (handlers.nums cfg st))
     = mod64 - (usedMemoryLimit st - MemoryLimit cfg)).
Proof.
  unfold is_u64. intros Hc Hm Huc Hum. simpl. unfold sub64, wrap64.
  split; intros Hlt.
  - symmetry. apply (Z.mod_unique_pos _ _ (-1)); lia.
  - symmetry. apply (Z.mod_unique_pos _ _ (-1)); lia.
Qed.

Lemma nums_free_wraps_witness :
  Free (n_CPUShares (handlers.nums Sample.cfg_low Sample2.over))
    = 18446744073709551616 - (10 - 5).
Proof.
  apply (proj1 (nums_free_wraps Sample.cfg_low Sample2.over ltac:(done) ltac:(done)
                  ltac:(done) ltac:(done))).
  reflexivity.
Defined.

(** X15.  When a request is refused for CPU shares, the available amount
    in the error is the free amount [nums] reports in the same state.  In
    a state whose CPU counter is within the total, a request that carries
    a manifest, fits, finds a slot and brings a new id is refused for CPU
    shares exactly when it asks for more than that free amount. *)
Theorem cpu_refusal_matches_nums cfg req m st :
  r_manifest req = Some m ->
  is_u64 (CPUShares cfg) ->
  0 <= usedCPUShares st <= CPUShares cfg ->
  0 <= types.CPUShares m ->
  types.CPUShares m + CPUShares cfg < mod64 ->
  Z.of_nat (size (containers st)) < NumContainers cfg ->
  containers st !! r_id req = None ->
  let free := Free (n_CPUShares (handlers.nums cfg st)) in
  free = CPUShares cfg - usedCPUShares st /\
  (free < types.CPUShares m <->
   reserve cfg req st
     = Done tt st
         [EvReserveResp
            {| container := None;
               err := Some (ErrCPU (types.CPUShares m) free) |}]).
Proof.
  intros Hman Hc Hu Hr Hfit Hsize Hid free. subst free. simpl.
  unfold is_u64 in Hc.
  assert (Hfree : sub64 (CPUShares cfg) (usedCPUShares st)
                  = CPUShares cfg - usedCPUShares st).
  { unfold sub64. apply wrap64_small. unfold is_u64. lia. }
  assert (Hsum : add64 (types.CPUShares m) (usedCPUShares st)
                 = types.CPUShares m + usedCPUShares st).
  { unfold add64. apply wrap64_small. unfold is_u64. lia. }
  split; [exact Hfree|]. split.
  - intros Hgt. apply (reserve_refused _ _ m); [exact Hman|]. unfold refusal.
    rewrite bool_decide_eq_false_2 by lia.
    rewrite bool_decide_eq_false_2 by (rewrite Hid; by intros [? ?]).
    rewrite Hsum.
    destruct (_ >? _) eqn:Hcmp; [done|].
    rewrite Z.gtb_ltb in Hcmp. apply Z.ltb_ge in Hcmp. lia.
  - intros Hrun.
    destruct (refusal cfg (r_id req) m st) as [e|] eqn:Href.
    + rewrite (reserve_refused _ _ _ _ _ Hman Href) in Hrun.
      injection Hrun as ->. unfold refusal in Href.
      rewrite bool_decide_eq_false_2 in Href by lia.
      rewrite bool_decide_eq_false_2 in Href by (rewrite Hid; by intros [? ?]).
      rewrite Hsum in Href.
      destruct (_ >? _) eqn:Hcmp in Href.
      * apply Z.gtb_lt in Hcmp. lia.
      * destruct (_ >? _) in Href; discriminate Href.
    + destruct (ports st) as [|s rest] eqn:Hp.
      * by rewrite (reserve_panics _ _ _ _ Hman Href Hp) in Hrun.
      * by rewrite (reserve_granted _ _ _ _ _ _ Hman Href Hp) in Hrun.
Qed.

(** Ten shares, six in use: a request for five is refused with four
    available. *)
Lemma cpu_refusal_matches_nums_witness :
  reserve Sample.cfg4 (Sample.req "b" 5 64) Sample2.six
    = Done tt Sample2.six
        [EvReserveResp {| container := None; err := Some (ErrCPU 5 4) |}]
  /\ Error (ErrCPU 5 4)
     = "Not enough CPU Shares to reserve. (5 requested, 4 available)".
Proof.
  split; [|vm_compute; reflexivity].
  destruct (cpu_refusal_matches_nums Sample.cfg4 (Sample.req "b" 5 64)
              (Sample.manifest 5 64) Sample2.six)
    as [Hfree Hiff].
  - reflexivity.
  - done.
  - vm_compute. split; intros H; discriminate H.
  - vm_compute. intros H; discriminate H.
  - reflexivity.
  - reflexivity.
  - reflexivity.
  - apply Hiff. reflexivity.
Defined.

(** * The monitor's service checks *)

Lemma contains_append sep a b :
  monitor.contains sep (a +:+ b) = monitor.contains sep a || monitor.contains sep b.
Proof.
  induction a as [|c a IH]; simpl; [done|].
  destruct (Ascii.eqb c sep); [done | exact IH].
Qed.

Lemma cut_None sep s :
  monitor.cut sep s = None <-> monitor.contains sep s = false.
Proof.
  induction s as [|c s IH]; simpl; [done|].
  destruct (Ascii.eqb c sep); [done|].
  destruct (monitor.cut sep s) as [[a b]|]; split; intros H; try done.
  - apply IH in H. done.
  - by apply IH.
Qed.

Lemma cut_append sep a b :
  monitor.contains sep a = false ->
  monitor.cut sep (a +:+ String sep b) = Some (a, b).
Proof.
  induction a as [|c a IH]; simpl.
  - intros _. by rewrite Ascii.eqb_refl.
  - destruct (Ascii.eqb c sep); [done|]. intros H. by rewrite (IH H).
Qed.

Lemma cut_Some sep s a b :
  monitor.cut sep s = Some (a, b) ->
  s = a +:+ String sep b /\ monitor.contains sep a = false.
Proof.
  revert a. induction s as [|c s IH]; simpl; intros a; [done|].
  destruct (Ascii.eqb c sep) eqn:Hc.
  - intros [= <- <-]. apply Ascii.eqb_eq in Hc. by subst c.
  - destruct (monitor.cut sep s) as [[a' b']|]; [|done].
    intros [= <- <-]. destruct (IH a' eq_refl) as [-> Ha].
    simpl. by rewrite Hc.
Qed.

(** The second of up to four fields never contains the separator. *)
Lemma SplitN_second_field sep s f :
  monitor.SplitN sep 4 s !! 1%nat = Some f -> monitor.contains sep f = false.
Proof.
  simpl. destruct (monitor.cut sep s) as [[a b]|] eqn:Hs; [|done]. simpl.
  destruct (monitor.cut sep b) as [[a1 b1]|] eqn:Hb; simpl.
  - intros [= <-]. by apply cut_Some in Hb as [_ Ha].
  - intros [= <-]. by apply cut_None.
Qed.

Lemma SplitN_fields sep a f rest :
  monitor.contains sep a = false ->
  monitor.contains sep f = false ->
  monitor.SplitN sep 4 (a +:+ String sep (f +:+ String sep rest)) !! 0%nat = Some a /\
  monitor.SplitN sep 4 (a +:+ String sep (f +:+ String sep rest)) !! 1%nat = Some f /\
  monitor.SplitN sep 4 (a +:+ String sep f) !! 1%nat = Some f.
Proof.
  intros Ha Hf. simpl.
  rewrite !(cut_append sep a) by exact Ha. simpl.
  rewrite (cut_append sep f) by exact Hf.
  apply cut_None in Hf. rewrite Hf. done.
Qed.

Lemma validate_field s msg :
  monitor.SplitN monitor.space 4 msg !! 1%nat = Some (monitor.Service s) ->
  monitor.validate s msg = msg.
Proof. unfold monitor.validate. intros ->. by rewrite decide_True. Qed.

Lemma validate_line s state rest :
  monitor.contains monitor.space state = false ->
  monitor.contains monitor.space (monitor.Service s) = false ->
  monitor.validate s (state +:+ " " +:+ monitor.Service s +:+ " " +:+ rest)
    = state +:+ " " +:+ monitor.Service s +:+ " " +:+ rest.
Proof.
  intros Ha Hs.
  destruct (SplitN_fields monitor.space state (monitor.Service s) rest Ha Hs)
    as (_ & H1 & _).
  apply validate_field. exact H1.
Qed.

(** X16.  The text a service check prints names its service in its second
    field: when the service name has no space, the second of the (up to
    four) space-separated fields of the error text, of the timeout text
    and of whatever [runCheck] prints is the service name, and the error
    and timeout texts start with the critical state 2.  The fields are
    those of the printed text as a whole, as [validate] splits it, not of
    each of its lines: an output that starts with a state word and the
    service name is printed unchanged whatever follows, later lines that
    name another service or none included. *)
Theorem printed_text_names_the_service s :
  monitor.contains monitor.space (monitor.Service s) = false ->
  (forall e,
     monitor.SplitN monitor.space 4 (monitor.errMsg s e) !! 0%nat = Some "2" /\
     monitor.SplitN monitor.space 4 (monitor.errMsg s e) !! 1%nat
       = Some (monitor.Service s)) /\
  (monitor.SplitN monitor.space 4 (monitor.timeOutMsg s) !! 0%nat = Some "2" /\
   monitor.SplitN monitor.space 4 (monitor.timeOutMsg s) !! 1%nat
     = Some (monitor.Service s)) /\
  (forall out e,
     monitor.SplitN monitor.space 4 (monitor.runCheck s out e) !! 1%nat
       = Some (monitor.Service s)) /\
  (forall state rest,
     monitor.contains monitor.space state = false ->
     monitor.runCheck s (state +:+ " " +:+ monitor.Service s +:+ " " +:+ rest) None
       = state +:+ " " +:+ monitor.Service s +:+ " " +:+ rest).
Proof.
  intros Hs.
  assert (Herr : forall e,
    monitor.SplitN monitor.space 4 (monitor.errMsg s e) !! 0%nat = Some "2" /\
    monitor.SplitN monitor.space 4 (monitor.errMsg s e) !! 1%nat
      = Some (monitor.Service s)).
  { intros e.
    destruct (SplitN_fields monitor.space "2" (monitor.Service s)
                (match e with
                 | Some t => "- " +:+ t +:+ monitor.newline
                 | None => "- Error encountered while monitoring the service"
                             +:+ monitor.newline
                 end) eq_refl Hs) as (H0 & H1 & _).
    destruct e; (split; [exact H0 | exact H1]). }
  split; [exact Herr|]. split; [|split].
  - destruct (SplitN_fields monitor.space "2" (monitor.Service s)
                ("- Timeout occured during check" +:+ monitor.newline) eq_refl Hs)
      as (H0 & H1 & _).
    split; [exact H0 | exact H1].
  - intros out [e|]; unfold monitor.runCheck; [apply Herr|].
    unfold monitor.validate.
    destruct (monitor.SplitN monitor.space 4 out !! 1%nat) as [f|] eqn:Hf;
      [|apply Herr].
    case_decide as Heq; [|apply Herr]. by rewrite Hf, Heq.
  - intros state rest Hstate. unfold monitor.runCheck.
    by apply validate_line.
Qed.

(** Garbage from the script is replaced by a text naming the check; an
    output of two lines whose first line names the check is printed as it
    is, its second line naming another. *)
Lemma printed_text_names_the_service_witness :
  monitor.SplitN monitor.space 4
    (monitor.runCheck (monitor.serviceCheck monitor.sample_check "disk.sh")
       "garbage" None) !! 1%nat
  = Some "disk_b"
  /\ monitor.runCheck (monitor.serviceCheck monitor.sample_check "disk.sh")
       ("0 disk_b - 12% used" +:+ monitor.newline
          +:+ "0 load_c - fine" +:+ monitor.newline) None
     = "0 disk_b - 12% used" +:+ monitor.newline
         +:+ "0 load_c - fine" +:+ monitor.newline.
Proof.
  split.
  - apply (proj1 (proj2 (proj2 (printed_text_names_the_service
                                  (monitor.serviceCheck monitor.sample_check "disk.sh")
                                  eq_refl)))).
  - apply (proj2 (proj2 (proj2 (printed_text_names_the_service
                                  (monitor.serviceCheck monitor.sample_check "disk.sh")
                                  eq_refl)))
             "0" ("- 12% used" +:+ monitor.newline
                    +:+ "0 load_c - fine" +:+ monitor.newline)).
    reflexivity.
Defined.

(** X17.  [validate] passes a line on unchanged when its second field is
    the service name: for a state word and a service name without
    spaces, both the line "state name rest" and the bare "state name"
    are accepted. *)
Theorem validate_accepts s state rest :
  monitor.contains monitor.space state = false ->
  monitor.contains monitor.space (monitor.Service s) = false ->
  monitor.validate s (state +:+ " " +:+ monitor.Service s +:+ " " +:+ rest)
    = state +:+ " " +:+ monitor.Service s +:+ " " +:+ rest /\
  monitor.validate s (state +:+ " " +:+ monitor.Service s)
    = state +:+ " " +:+ monitor.Service s.
Proof.
  intros Ha Hs.
  destruct (SplitN_fields monitor.space state (monitor.Service s) rest Ha Hs)
    as (_ & H1 & H2).
  split; apply validate_field; [exact H1 | exact H2].
Qed.

Lemma validate_accepts_witness :
  monitor.validate (monitor.serviceCheck monitor.sample_check "disk.sh")
    "0 disk_b - 12% used"
  = "0 disk_b - 12% used".
Proof.
  apply (proj1 (validate_accepts
                  (monitor.serviceCheck monitor.sample_check "disk.sh")
                  "0" "- 12% used" eq_refl eq_refl)).
Defined.

(** X18.  [validate] replaces a line by the generic error line when the
    line has no space at all, and, whatever the line, when the service
    name itself contains a space: no output can then name the service in
    one field, so such a check never reports anything but the error. *)
Theorem validate_rejects s :
  (forall msg,
     monitor.contains monitor.space msg = false ->
     monitor.validate s msg = monitor.errMsg s None) /\
  (monitor.contains monitor.space (monitor.Service s) = true ->
   forall msg, monitor.validate s msg = monitor.errMsg s None).
Proof.
  split.
  - intros msg Hmsg. unfold monitor.validate. simpl.
    apply cut_None in Hmsg. by rewrite Hmsg.
  - intros Hs msg. unfold monitor.validate.
    destruct (monitor.SplitN monitor.space 4 msg !! 1%nat) as [f|] eqn:Hf; [|done].
    case_decide as Heq; [|done].
    apply SplitN_second_field in Hf. rewrite Heq, Hs in Hf. discriminate Hf.
Qed.

Lemma validate_rejects_witness :
  monitor.validate (monitor.serviceCheck monitor.sample_check "disk usage.sh")
    "0 disk usage_b - 12% used"
  = "2 disk usage_b - Error encountered while monitoring the service"
      +:+ monitor.newline.
Proof.
  apply (proj2 (validate_rejects
                  (monitor.serviceCheck monitor.sample_check "disk usage.sh"))
           eq_refl).
Defined.

Lemma head_Split sep s :
  head (monitor.Split sep s)
    = Some (match monitor.cut sep s with Some (a, _) => a | None => s end).
Proof.
  induction s as [|c s IH]; simpl; [done|].
  destruct (Ascii.eqb c sep); [done|].
  destruct (monitor.Split sep s) as [|x xs]; [done|]. simpl in *.
  injection IH as ->. by destruct (monitor.cut sep s) as [[a b]|].
Qed.

(** X19.  The service name [serviceCheck] builds is the script name up to
    its first dot, an underscore and the container id; the part taken
    from the script holds no dot, so everything from the first dot on is
    dropped.  The check connects to the container's SSH port and hands
    the primary port to the script.  When script name and id have no
    space, the check accepts every line "state name rest" printed for it. *)
Theorem serviceCheck_name c script :
  let s := monitor.serviceCheck c script in
  exists stem,
    monitor.Service s = stem +:+ "_" +:+ Id (monitor.cc_container c) /\
    monitor.contains monitor.dot stem = false /\
    (script = stem \/ exists ext, script = stem +:+ String monitor.dot ext) /\
    monitor.Port s = SSHPort (monitor.cc_container c) /\
    monitor.Script s
      = monitor.cc_Directory c +:+ "/" +:+ script +:+ " "
          +:+ pretty (PrimaryPort (monitor.cc_container c)) +:+ " "
          +:+ Id (monitor.cc_container c) /\
    (monitor.contains monitor.space script = false ->
     monitor.contains monitor.space (Id (monitor.cc_container c)) = false ->
     forall state rest,
       monitor.contains monitor.space state = false ->
       monitor.validate s (state +:+ " " +:+ monitor.Service s +:+ " " +:+ rest)
         = state +:+ " " +:+ monitor.Service s +:+ " " +:+ rest).
Proof.
  intros s. subst s. unfold monitor.serviceCheck. simpl.
  rewrite head_Split. simpl.
  destruct (monitor.cut monitor.dot script) as [[stem ext]|] eqn:Hcut.
  - apply cut_Some in Hcut as [Hscript Hstem].
    exists stem. split; [done|]. split; [exact Hstem|].
    split; [right; by exists ext|]. split; [done|]. split; [done|].
    intros Hsp Hid state rest Hstate.
    apply validate_line; [exact Hstate|]. simpl.
    rewrite contains_append. simpl. rewrite contains_append. simpl.
    rewrite Hid.
    rewrite Hscript, contains_append in Hsp.
    apply orb_false_iff in Hsp as [-> _]. done.
  - apply cut_None in Hcut.
    exists script. split; [done|]. split; [exact Hcut|].
    split; [by left|]. split; [done|]. split; [done|].
    intros Hsp Hid state rest Hstate.
    apply validate_line; [exact Hstate|]. simpl.
    rewrite contains_append. simpl. rewrite contains_append. simpl.
    by rewrite Hid, Hsp.
Qed.

Lemma serviceCheck_name_witness :
  monitor.validate (monitor.serviceCheck monitor.sample_check "disk.check.sh")
    "1 disk_b - 91% used"
  = "1 disk_b - 91% used".
Proof.
  destruct (serviceCheck_name monitor.sample_check "disk.check.sh")
    as (stem & _ & _ & _ & _ & _ & Hacc).
  apply (Hacc eq_refl eq_refl "1" "- 91% used" eq_refl).
Defined.
